(** * Agent tools of context_agent ([ex_app/lib/tools.py])

    A shallow embedding of the tool functions built by [get_tools]: the
    Python values they handle, the exceptions they raise, the remote calls
    they issue (recorded in a trace), and the properties of the bounded
    polling loop of [ask_context_chat], of the name lookups of the calendar
    and Talk tools, and of the guard of the weather tool. *)

From Stdlib Require Import ZArith Lia Ascii String.
From stdpp Require Import base option list strings pretty gmap.

Local Open Scope string_scope.
Local Open Scope Z_scope.
Set Warnings "-register-all".

(** ** Python values, exceptions and the effect monad *)

Module Py.

(** A JSON document as [json.loads] / [res.json()] delivers it: [None],
    [bool], [int], [float] (a decimal mantissa and exponent; only its being
    zero is ever observed here), [str], [list] and [dict] with string keys.
    A dict is kept as an association list read from the front. *)
Inductive json : Type :=
  | JNull
  | JBool (b : bool)
  | JInt (z : Z)
  | JFloat (mantissa exponent : Z)
  | JStr (s : string)
  | JList (l : list json)
  | JDict (d : list (string * json)).

(** Keys as they appear in a [KeyError]. *)
Inductive pykey : Type :=
  | KStr (s : string)
  | KInt (z : Z).

Inductive exn : Type :=
  | Exception (msg : string)
  | ValidationError
  | KeyError (k : pykey)
  | IndexError
  | TypeError
  | ValueError
  | UnknownTimeZoneError (zone : option string)
  | RemoteError (msg : string).

(** What a pure computation, a library call or a remote call comes back
    with: a value or a raised exception. *)
Inductive outcome (A : Type) : Type :=
  | Returned (a : A)
  | Raised (e : exn).
Arguments Returned {A} a.
Arguments Raised {A} e.

(** The result of running a tool: a value, a raised exception, or the
    model's loop budget running out (which the tools never do, see
    [ContextChatProps.fuel_irrelevant]). *)
Inductive result (A : Type) : Type :=
  | Ok (a : A)
  | Raise (e : exn)
  | OutOfFuel.
Arguments Ok {A} a.
Arguments Raise {A} e.
Arguments OutOfFuel {A}.

Definition of_outcome {A} (o : outcome A) : result A :=
  match o with Returned a => Ok a | Raised e => Raise e end.

(** [dict.get]-like lookup on the association list of a dict. *)
Fixpoint dict_lookup (k : string) (d : list (string * json)) : option json :=
  match d with
  | [] => None
  | (k', v) :: d' => if String.eqb k k' then Some v else dict_lookup k d'
  end.

(** [needle in hay] for two strings: substring test. *)
Fixpoint str_contains (needle hay : string) : bool :=
  String.prefix needle hay
  || match hay with
     | EmptyString => false
     | String _ hay' => str_contains needle hay'
     end.

(** Python truth value of a JSON value ([bool(v)]). *)
Definition truthy (v : json) : bool :=
  match v with
  | JNull => false
  | JBool b => b
  | JInt z => negb (z =? 0)
  | JFloat m _ => negb (m =? 0)
  | JStr s => negb (String.eqb s "")
  | JList l => match l with [] => false | _ => true end
  | JDict d => match d with [] => false | _ => true end
  end.

Definition is_str (s : string) (v : json) : bool :=
  match v with JStr s' => String.eqb s s' | _ => false end.

(** [k in v] for a string [k]: key test on a dict, element test on a list,
    substring test on a string, [TypeError] on a value that is not
    iterable. *)
Definition contains (k : string) (v : json) : outcome bool :=
  match v with
  | JDict d => Returned (bool_decide (is_Some (dict_lookup k d)))
  | JList l => Returned (existsb (is_str k) l)
  | JStr s => Returned (str_contains k s)
  | _ => Raised TypeError
  end.

(** [v[k]] for a string [k]. *)
Definition getitem (v : json) (k : string) : outcome json :=
  match v with
  | JDict d => match dict_lookup k d with
               | Some x => Returned x
               | None => Raised (KeyError (KStr k))
               end
  | _ => Raised TypeError
  end.

(** [v[0]]. The keys of a JSON dict are strings, so [0] is never one. *)
Definition getitem0 (v : json) : outcome json :=
  match v with
  | JList l => match l with x :: _ => Returned x | [] => Raised IndexError end
  | JStr s => match s with
              | String c _ => Returned (JStr (String c EmptyString))
              | EmptyString => Raised IndexError
              end
  | JDict _ => Raised (KeyError (KInt 0))
  | _ => Raised TypeError
  end.

(** The dict comprehension [{key(x): x for x in l}]: a later element
    replaces an earlier one under the same key. *)
Definition dict_by {A} (key : A -> string) (l : list A) : gmap string A :=
  foldl (fun m x => <[key x := x]> m) ∅ l.

(** [m[k]] on such a dict. *)
Definition subscript {A} (m : gmap string A) (k : string) : outcome A :=
  match m !! k with
  | Some x => Returned x
  | None => Raised (KeyError (KStr k))
  end.

(** Truth value of an optional string argument: [None] and the empty string
    are falsy. *)
Definition truthy_arg (s : option string) : bool :=
  match s with
  | Some s => negb (String.eqb s "")
  | None => false
  end.

(** Sequencing of pure code that may raise. *)
Definition obind {A B} (o : outcome A) (k : A -> outcome B) : outcome B :=
  match o with
  | Returned a => k a
  | Raised e => Raised e
  end.

(** Code acting on a world [W] (the Nextcloud server, the network) and
    leaving a trace of events [E]. *)
Definition M (W E A : Type) : Type := W -> result A * W * list E.

Definition ret {W E A} (a : A) : M W E A := fun w => (Ok a, w, []).

Definition bind {W E A B} (m : M W E A) (k : A -> M W E B) : M W E B :=
  fun w =>
    match m w with
    | (Ok a, w1, t1) =>
        match k a w1 with
        | (r, w2, t2) => (r, w2, (t1 ++ t2)%list)
        end
    | (Raise e, w1, t1) => (Raise e, w1, t1)
    | (OutOfFuel, w1, t1) => (OutOfFuel, w1, t1)
    end.

(** Pure code lifted into the monad. *)
Definition lift {W E A} (o : outcome A) : M W E A :=
  fun w => (of_outcome o, w, []).

(** A call into the world: [step] is what the world answers, [ev] the event
    recorded for it (with the answer). *)
Definition call {W E A} (step : W -> outcome A * W) (ev : outcome A -> E)
  : M W E A :=
  fun w => match step w with (o, w') => (of_outcome o, w', [ev o]) end.

(** An effect that cannot fail and yields nothing ([time.sleep], [log]). *)
Definition emit {W E} (e : E) : M W E unit := fun w => (Ok tt, w, [e]).

(** [try: m except <exceptions selected by handles>: raise e'] *)
Definition try_except_raise {W E A} (m : M W E A) (handles : exn -> bool)
    (e' : exn) : M W E A :=
  fun w =>
    match m w with
    | (Raise e, w1, t1) => (Raise (if handles e then e' else e), w1, t1)
    | other => other
    end.

End Py.

Import Py.

Declare Scope py_scope.
Delimit Scope py_scope with py.
Notation "x <- m ;; k" := (bind m (fun x => k))
  (at level 20, m at level 99, k at level 200, only parsing) : py_scope.
Notation "m ;; k" := (bind m (fun _ => k))
  (at level 100, k at level 200, only parsing, right associativity) : py_scope.
Notation "x <~ r ;; k" := (obind r (fun x => k))
  (at level 20, r at level 99, k at level 200, only parsing) : py_scope.

(** ** The Nextcloud client [nc] and the events the tools leave *)

Module Nc.

Inductive LogLvl : Type := DEBUG | INFO | WARNING | ERROR | FATAL.

(** [class Task(BaseModel)] (lines 159-162). [output] holds [JNull] for
    [None]. *)
Record Task : Type := mkTask {
  id : Z;
  status : string;
  output : json;
}.

Record TalkMessage : Type := mkTalkMessage {
  timestamp : Z;
  actor_display_name : string;
  message : string;
}.

(** What the tools use of [nc], over the state [W] of the server. Every
    remote call answers or raises, and moves the server to a new state. *)
Record Nextcloud (W Principal Cal Conv : Type) : Type := mkNextcloud {
  cal_principal : W -> outcome Principal * W;
  principal_calendars : Principal -> W -> outcome (list Cal) * W;
  cal_name : Cal -> string;
  calendar_add_event : Cal -> string -> W -> outcome unit * W;
  talk_get_user_conversations : W -> outcome (list Conv) * W;
  conv_display_name : Conv -> string;
  talk_send_message : string -> Conv -> W -> outcome unit * W;
  talk_receive_messages :
    Conv -> bool -> Z -> W -> outcome (list TalkMessage) * W;
  ocs : string -> string -> option json -> W -> outcome json * W;
}.
Arguments cal_principal {W Principal Cal Conv} _.
Arguments principal_calendars {W Principal Cal Conv} _.
Arguments cal_name {W Principal Cal Conv} _.
Arguments calendar_add_event {W Principal Cal Conv} _.
Arguments talk_get_user_conversations {W Principal Cal Conv} _.
Arguments conv_display_name {W Principal Cal Conv} _.
Arguments talk_send_message {W Principal Cal Conv} _.
Arguments talk_receive_messages {W Principal Cal Conv} _.
Arguments ocs {W Principal Cal Conv} _.

Inductive event (Principal Cal Conv : Type) : Type :=
  | EvPrincipal (res : outcome Principal)
  | EvCalendars (res : outcome (list Cal))
  | EvAddEvent (cal : Cal) (ics : string) (res : outcome unit)
  | EvConversations (res : outcome (list Conv))
  | EvSendMessage (message : string) (conv : Conv) (res : outcome unit)
  | EvReceiveMessages (conv : Conv) (look_in_future : bool) (limit : Z)
                      (res : outcome (list TalkMessage))
  | EvOcs (method path : string) (body : option json) (res : outcome json)
  | EvSleep (secs : Z)
  | EvLog (lvl : LogLvl) (content : Task).
Arguments EvPrincipal {Principal Cal Conv}.
Arguments EvCalendars {Principal Cal Conv}.
Arguments EvAddEvent {Principal Cal Conv}.
Arguments EvConversations {Principal Cal Conv}.
Arguments EvSendMessage {Principal Cal Conv}.
Arguments EvReceiveMessages {Principal Cal Conv}.
Arguments EvOcs {Principal Cal Conv}.
Arguments EvSleep {Principal Cal Conv}.
Arguments EvLog {Principal Cal Conv}.

End Nc.

Import Nc.

(** ** [list_calendars] and [schedule_event] (lines 19-83) *)

Module Calendar.

Record date : Type := mkDate { year : Z; month : Z; day : Z }.
Record time : Type := mkTime { hour : Z; minute : Z; second : Z }.

(** A naive [datetime]. *)
Record datetime : Type := mkDatetime { dt_date : date; dt_time : time }.

Definition midnight : time := mkTime 0 0 0.

(** [datetime.combine(d, t)], where [d] is itself a [datetime] whose date
    part is taken. *)
Definition combine (d : datetime) (t : time) : datetime :=
  mkDatetime (dt_date d) t.



(** A [datetime] with the time zone that [tz.localize] attached to it. *)
Record aware_datetime (TzInfo : Type) : Type := mkAware {
  naive : datetime;
  tzinfo : TzInfo;
}.
Arguments mkAware {TzInfo}.
Arguments naive {TzInfo}.
Arguments tzinfo {TzInfo}.

(** The fields set on the [ics] event at lines 69-73. *)
Record event_fields (TzInfo : Type) : Type := mkEventFields {
  name : string;
  begin : aware_datetime TzInfo;
  end_ : aware_datetime TzInfo;
  description : string;
  location : option string;
}.
Arguments mkEventFields {TzInfo}.
Arguments name {TzInfo}.
Arguments begin {TzInfo}.
Arguments end_ {TzInfo}.
Arguments description {TzInfo}.
Arguments location {TzInfo}.

Section Tools.
Context {W Principal Cal Conv TzInfo IcsCalendar : Type}.
Variable nc : Nextcloud W Principal Cal Conv.

(** The libraries: [datetime.strptime(s, fmt)]; the zone table of [pytz];
    building the [ics] calendar holding the one event (lines 67-76, where
    the setters of [ics] may raise); and [str(c)]. *)
Variable strptime : string -> string -> outcome datetime.
Variable tz_database : string -> option TzInfo.
Variable ics_calendar : event_fields TzInfo -> outcome IcsCalendar.
Variable ics_str : IcsCalendar -> outcome string.

(** [pytz.timezone(zone)]: [UnknownTimeZoneError] for [None] and for a name
    that is not in the zone table. *)
Definition pytz_timezone (zone : option string) : outcome TzInfo :=
  match zone with
  | None => Raised (UnknownTimeZoneError None)
  | Some z =>
      match tz_database z with
      | Some tz => Returned tz
      | None => Raised (UnknownTimeZoneError (Some z))
      end
  end.

(** [tz.localize(dt)] on a naive [dt]. *)
Definition localize (tz : TzInfo) (dt : datetime) : aware_datetime TzInfo :=
  mkAware dt tz.

(** Lines 19-27. *)
Definition list_calendars : M W (event Principal Cal Conv) string :=
  (principal <- call (cal_principal nc) EvPrincipal ;;
   calendars <- call (principal_calendars nc principal) EvCalendars ;;
   ret (String.concat ", " (map (cal_name nc) calendars)))%py.

(** Lines 45-58: the naive start and end of the event. *)
Definition event_times (start_date end_date : string)
    (start_time end_time : option string) : outcome (datetime * datetime) :=
  (start_date' <~ strptime start_date "%Y-%m-%d" ;;
   end_date' <~ strptime end_date "%Y-%m-%d" ;;
   if truthy_arg start_time && truthy_arg end_time then
     start_time' <~ strptime (default "" start_time) "%I:%M %p" ;;
     end_time' <~ strptime (default "" end_time) "%I:%M %p" ;;
     Returned (combine start_date' (dt_time start_time'),
               combine end_date' (dt_time end_time'))
   else
     Returned (start_date', end_date'))%py.

(** Lines 30-83. *)
Definition schedule_event (calendar_name title description : string)
    (start_date end_date : string) (start_time end_time : option string)
    (location timezone : option string)
  : M W (event Principal Cal Conv) bool :=
  (times <- lift (event_times start_date end_date start_time end_time) ;;
   tz <- lift (pytz_timezone timezone) ;;
   c <- lift (ics_calendar
                (mkEventFields title
                   (localize tz (fst times)) (localize tz (snd times))
                   description location)) ;;
   principal <- call (cal_principal nc) EvPrincipal ;;
   calendars <- call (principal_calendars nc principal) EvCalendars ;;
   calendar <- lift (subscript (dict_by (cal_name nc) calendars)
                               calendar_name) ;;
   text <- lift (ics_str c) ;;
   call (calendar_add_event nc calendar text) (EvAddEvent calendar text) ;;
   ret true)%py.

End Tools.

End Calendar.

(** ** The Talk tools (lines 88-123) *)

Module Talk.

Section Tools.
Context {W Principal Cal Conv : Type}.
Variable nc : Nextcloud W Principal Cal Conv.

(** Lines 88-96. *)
Definition list_talk_conversations : M W (event Principal Cal Conv) string :=
  (conversations <- call (talk_get_user_conversations nc) EvConversations ;;
   ret (String.concat ", " (map (conv_display_name nc) conversations)))%py.

(** Lines 99-111. *)
Definition send_message_to_conversation (conversation_name message : string)
  : M W (event Principal Cal Conv) bool :=
  (conversations <- call (talk_get_user_conversations nc) EvConversations ;;
   conversation <- lift (subscript (dict_by (conv_display_name nc)
                                            conversations)
                                   conversation_name) ;;
   call (talk_send_message nc message conversation)
        (EvSendMessage message conversation) ;;
   ret true)%py.

(** The f-string of line 123. *)
Definition format_message (m : TalkMessage) : string :=
  pretty (timestamp m) ++ " " ++ actor_display_name m ++ ": " ++ message m.

(** Lines 113-123; [n_messages] defaults to 30. *)
Definition list_messages_in_conversation (conversation_name : string)
    (n_messages : Z) : M W (event Principal Cal Conv) (list string) :=
  (conversations <- call (talk_get_user_conversations nc) EvConversations ;;
   conversation <- lift (subscript (dict_by (conv_display_name nc)
                                            conversations)
                                   conversation_name) ;;
   messages <- call (talk_receive_messages nc conversation false n_messages)
                    (EvReceiveMessages conversation false n_messages) ;;
   ret (map format_message messages))%py.

End Tools.

End Talk.

(** ** [ask_context_chat] (lines 159-208) *)

Module ContextChat.

Definition STATUS_SUCCESSFUL : string := "STATUS_SUCCESSFUL".
Definition STATUS_FAILED : string := "STATUS_FAILED".

(** The three failures of the tool. In the code each is a plain
    [Exception], told apart by its message only. *)
Definition MalformedResponse : exn :=
  Exception "Failed to parse Nextcloud TaskProcessing task result".
Definition TaskFailed : exn :=
  Exception "Nextcloud TaskProcessing Task failed".
Definition MalformedOutput : exn :=
  Exception (String "034"%char "output"
             ++ String "034"%char
                  " key not found in Nextcloud TaskProcessing task result").

Definition schedule_path : string := "/ocs/v1.php/taskprocessing/schedule".

(** The f-string of line 196. *)
Definition task_path (id : Z) : string :=
  "/ocs/v1.php/taskprocessing/task/" ++ pretty id.

(** Lines 175-180. *)
Definition task_input (question : string) : json :=
  JDict [("prompt", JStr question); ("scopeType", JStr "none");
         ("scopeList", JList []); ("scopeListMeta", JStr "")].

(** The [json=] argument of line 184. *)
Definition schedule_body (question : string) : json :=
  JDict [("type", JStr "context_chat:context_chat");
         ("appId", JStr "context_agent"); ("input", task_input question)].

(** A status that ends the polling. *)
Definition terminal (status : string) : bool :=
  String.eqb status STATUS_SUCCESSFUL || String.eqb status STATUS_FAILED.

(** The condition of the [while] of line 193. *)
Definition loop_continues (task : Task) (i : Z) : bool :=
  negb (String.eqb (status task) STATUS_SUCCESSFUL)
  && negb (String.eqb (status task) STATUS_FAILED)
  && (i <? 60 * 6).

Definition is_ValidationError (e : exn) : bool :=
  match e with ValidationError => true | _ => false end.

Definition isinstance_dict (v : json) : bool :=
  match v with JDict _ => true | _ => false end.

(** Lines 202-208: from the last fetched task to the answer. *)
Definition extract_result (task : Task) : outcome json :=
  (if negb (String.eqb (status task) STATUS_SUCCESSFUL) then Raised TaskFailed
   else if negb (isinstance_dict (output task)) then Raised MalformedOutput
   else
     has_output <~ contains "output" (output task) ;;
     if negb has_output then Raised MalformedOutput
     else getitem (output task) "output")%py.

Section Tool.
Context {W Principal Cal Conv : Type}.
Variable nc : Nextcloud W Principal Cal Conv.

(** What [Response.model_validate(response).task] yields when [response]
    fits the two models of lines 159-165, [None] when pydantic rejects
    it. *)
Variable parse_task : json -> option Task.

(** [Response.model_validate(response).task] *)
Definition model_validate (response : json) : outcome Task :=
  match parse_task response with
  | Some task => Returned task
  | None => Raised ValidationError
  end.

(** Modelled from the spec: [log] of the repository's [logger] module, which
    is not among the sources. "Each fetched handle is logged at a debug
    severity for observability"; it leaves an event and does not raise. *)
Definition log (lvl : LogLvl) (content : Task)
  : M W (event Principal Cal Conv) unit :=
  emit (EvLog lvl content).

(** [time.sleep(secs)] *)
Definition sleep (secs : Z) : M W (event Principal Cal Conv) unit :=
  emit (EvSleep secs).

(** Lines 193-198, entered with the counter at [i] and the last fetched
    task [task]. [fuel] bounds the iterations of the model. *)
Fixpoint poll_loop (fuel : nat) (i : Z) (task : Task)
  : M W (event Principal Cal Conv) Task :=
  if loop_continues task i then
    match fuel with
    | O => fun w => (OutOfFuel, w, [])
    | S fuel' =>
        (sleep 5 ;;
         let i := i + 1 in
         response <- call (ocs nc "GET" (task_path (id task)) None)
                          (EvOcs "GET" (task_path (id task)) None) ;;
         task <- lift (model_validate response) ;;
         log DEBUG task ;;
         poll_loop fuel' i task)%py
    end
  else ret task.

(** Lines 187-200: the [try] block and its handler. *)
Definition fetch_task (fuel : nat) (response : json)
  : M W (event Principal Cal Conv) Task :=
  try_except_raise
    (task <- lift (model_validate response) ;;
     log DEBUG task ;;
     poll_loop fuel 0 task)%py
    is_ValidationError MalformedResponse.

(** Lines 168-208. *)
Definition ask_context_chat_fuel (fuel : nat) (question : string)
  : M W (event Principal Cal Conv) json :=
  (response <- call (ocs nc "POST" schedule_path
                         (Some (schedule_body question)))
                    (EvOcs "POST" schedule_path
                         (Some (schedule_body question))) ;;
   task <- fetch_task fuel response ;;
   lift (extract_result task))%py.

(** The loop runs at most [60 * 6] times, so that much fuel is all it can
    use ([ContextChatProps.fuel_irrelevant]). *)
Definition ask_context_chat (question : string)
  : M W (event Principal Cal Conv) json :=
  ask_context_chat_fuel 360 question.

(** What the handler of line 199 and lines 202-208 make of the outcome of
    the [try] block. *)
Definition finish (r : result Task) : result json :=
  match r with
  | Ok task => of_outcome (extract_result task)
  | Raise e => Raise (if is_ValidationError e then MalformedResponse else e)
  | OutOfFuel => OutOfFuel
  end.

(** The runs of the loop, as a relation between the counter and task it is
    entered with, the trace it leaves and its outcome: it stops, or its
    poll raises, or the response of its poll does not parse, or it goes
    round with the task just fetched. *)
Inductive poll_run
  : Z -> Task -> list (event Principal Cal Conv) -> result Task -> Prop :=
  | run_stop i task :
      loop_continues task i = false ->
      poll_run i task [] (Ok task)
  | run_raised i task e :
      loop_continues task i = true ->
      poll_run i task
        [EvSleep 5; EvOcs "GET" (task_path (id task)) None (Raised e)]
        (Raise e)
  | run_invalid i task response :
      loop_continues task i = true ->
      parse_task response = None ->
      poll_run i task
        [EvSleep 5;
         EvOcs "GET" (task_path (id task)) None (Returned response)]
        (Raise ValidationError)
  | run_more i task response task' tr r :
      loop_continues task i = true ->
      parse_task response = Some task' ->
      poll_run (i + 1) task' tr r ->
      poll_run i task
        (EvSleep 5
         :: EvOcs "GET" (task_path (id task)) None (Returned response)
         :: EvLog DEBUG task' :: tr)
        r.

(** The runs of the whole tool on a question. *)
Inductive chat_run (question : string)
  : list (event Principal Cal Conv) -> result json -> Prop :=
  | chat_post_raised e :
      chat_run question
        [EvOcs "POST" schedule_path (Some (schedule_body question))
           (Raised e)]
        (Raise e)
  | chat_post_invalid response :
      parse_task response = None ->
      chat_run question
        [EvOcs "POST" schedule_path (Some (schedule_body question))
           (Returned response)]
        (Raise MalformedResponse)
  | chat_polled response task tr r :
      parse_task response = Some task ->
      poll_run 0 task tr r ->
      chat_run question
        (EvOcs "POST" schedule_path (Some (schedule_body question))
           (Returned response)
         :: EvLog DEBUG task :: tr)
        (finish r).

End Tool.

(** *** Reading a trace *)

Section Trace.
Context {Principal Cal Conv : Type}.

(** A poll is one status fetch: a [GET] on the OCS interface. *)
Definition is_poll (e : event Principal Cal Conv) : bool :=
  match e with
  | EvOcs method _ _ _ => String.eqb method "GET"
  | _ => false
  end.

Definition count_polls (tr : list (event Principal Cal Conv)) : nat :=
  length (List.filter is_poll tr).

(** The task that an OCS request fetched, when it came back with a response
    that parses. *)
Definition fetched_task (parse_task : json -> option Task)
    (o : outcome json) : option Task :=
  match o with
  | Returned response => parse_task response
  | Raised _ => None
  end.

(** The answer of the last OCS request of a trace, after [acc]. *)
Fixpoint last_response_from (acc : option (outcome json))
    (tr : list (event Principal Cal Conv)) : option (outcome json) :=
  match tr with
  | [] => acc
  | EvOcs _ _ _ res :: tr' => last_response_from (Some res) tr'
  | _ :: tr' => last_response_from acc tr'
  end.

(** The final fetched task of a run: what its last OCS request came back
    with, when that parses. *)
Definition final_task (parse_task : json -> option Task)
    (tr : list (event Principal Cal Conv)) : option Task :=
  match last_response_from None tr with
  | Some o => fetched_task parse_task o
  | None => None
  end.

End Trace.

End ContextChat.

(** ** [get_current_weather_for_coordinates] (lines 141-156) *)

Module Weather.

Definition descriptive_error : exn :=
  Exception "Could not retrieve weather for coordinates".

(** Lines 154-156, on the document [json] that [res.json()] returned. The
    three operands of [or] are evaluated left to right and short-circuit. *)
Definition weather_details (json : json) : outcome Py.json :=
  (has_props <~ contains "properties" json ;;
   if negb has_props then Raised descriptive_error else
   props <~ getitem json "properties" ;;
   has_ts <~ contains "timeseries" props ;;
   if negb has_ts then Raised descriptive_error else
   props' <~ getitem json "properties" ;;
   ts <~ getitem props' "timeseries" ;;
   if negb (truthy ts) then Raised descriptive_error else
   props'' <~ getitem json "properties" ;;
   ts' <~ getitem props'' "timeseries" ;;
   entry <~ getitem0 ts' ;;
   data <~ getitem entry "data" ;;
   instant <~ getitem data "instant" ;;
   getitem instant "details")%py.

Inductive event : Type :=
  | EvHttpGet (url : string) (params : list (string * string))
              (res : outcome json).

Definition weather_url : string :=
  "https://api.met.no/weatherapi/locationforecast/2.0/compact".

Section Tool.
Context {W : Type}.
(** [httpx.get(url, params=...)] followed by [res.json()]: the document, or
    whatever either of them raises. *)
Variable httpx_get_json :
  string -> list (string * string) -> W -> outcome json * W.

Definition get_current_weather_for_coordinates (lat lon : string)
  : M W event json :=
  (json <- call (httpx_get_json weather_url [("lat", lat); ("lon", lon)])
                (EvHttpGet weather_url [("lat", lat); ("lon", lon)]) ;;
   lift (weather_details json))%py.
End Tool.

(** ['properties' not in json] *)
Definition lacks_properties (j : json) : Prop :=
  contains "properties" j = Returned false.

(** ['timeseries' not in json['properties']] *)
Definition lacks_timeseries (j : json) : Prop :=
  exists props, getitem j "properties" = Returned props
                /\ contains "timeseries" props = Returned false.

(** [json['properties']['timeseries']] is there and is empty, that is,
    falsy: [[]] for a list (and likewise [{}], the empty string, [0],
    [false] and [null]). *)
Definition empty_timeseries (j : json) : Prop :=
  exists props ts, getitem j "properties" = Returned props
                   /\ getitem props "timeseries" = Returned ts
                   /\ truthy ts = false.

(** A world for the examples: the weather service answers every request
    with the document it holds. *)
Definition fixed_service (j : json)
  : string -> list (string * string) -> unit -> outcome json * unit :=
  fun _ _ w => (Returned j, w).

Definition sample_details : json :=
  JDict [("air_temperature", JFloat 215 (-1)); ("wind_speed", JFloat 32 (-1))].

Definition sample_forecast : json :=
  JDict [("type", JStr "Feature");
         ("properties",
          JDict [("timeseries",
                  JList [JDict [("time", JStr "2024-12-01T12:00:00Z");
                                ("data",
                                 JDict [("instant",
                                         JDict [("details", sample_details)])])]])])].

End Weather.

(** ** A concrete server and concrete libraries, for the examples *)

Module Demo.
Import Calendar ContextChat.

(** The server answers the OCS requests from a script, then with a fallback
    answer for ever, and keeps a journal of what was written to it. *)
Record world : Type := mkWorld {
  script : list (outcome json);
  fallback : outcome json;
  journal : list (string * string);
}.

Definition calendars : list (string * nat) :=
  [("Personal", 1%nat); ("Work", 2%nat); ("Work", 3%nat)].

Definition conversations : list (string * nat) :=
  [("Team", 1%nat); ("Family", 2%nat)].

Definition history : list TalkMessage :=
  [mkTalkMessage 1733050000 "Ada" "hello"; mkTalkMessage 1733050060 "Bob" "hi"].

Definition write (target text : string) (w : world) : world :=
  mkWorld (script w) (fallback w) (journal w ++ [(target, text)]).

Definition answer (w : world) : outcome json * world :=
  match script w with
  | r :: rest => (r, mkWorld rest (fallback w) (journal w))
  | [] => (fallback w, w)
  end.

Definition nc : Nextcloud world unit (string * nat) (string * nat) :=
  {| cal_principal := fun w => (Returned tt, w);
     principal_calendars := fun _ w => (Returned calendars, w);
     cal_name := fst;
     calendar_add_event := fun cal text w => (Returned tt, write (fst cal) text w);
     talk_get_user_conversations := fun w => (Returned conversations, w);
     conv_display_name := fst;
     talk_send_message :=
       fun message conv w => (Returned tt, write (fst conv) message w);
     talk_receive_messages :=
       fun _ _ limit w => (Returned (take (Z.to_nat limit) history), w);
     ocs := fun _ _ _ w => answer w |}.

Definition quiet : world := mkWorld [] (Raised (RemoteError "no route")) [].

(** *** Dates and times *)

Definition digit (c : ascii) : option Z :=
  let n := Z.of_nat (nat_of_ascii c) in
  if (48 <=? n) && (n <=? 57) then Some (n - 48) else None.

Fixpoint number_from (s : string) (acc : Z) : option Z :=
  match s with
  | EmptyString => Some acc
  | String c s' =>
      match digit c with
      | Some d => number_from s' (10 * acc + d)
      | None => None
      end
  end.

Definition number (s : string) : option Z :=
  match s with
  | EmptyString => None
  | _ => number_from s 0
  end.

(** [s.split(sep)] *)
Fixpoint split_at (sep : ascii) (s : string) : list string :=
  match s with
  | EmptyString => [EmptyString]
  | String c s' =>
      if Ascii.eqb c sep then EmptyString :: split_at sep s'
      else match split_at sep s' with
           | h :: t => String c h :: t
           | [] => [String c EmptyString]
           end
  end.

Definition leap (y : Z) : bool :=
  ((y mod 4 =? 0) && negb (y mod 100 =? 0)) || (y mod 400 =? 0).

Definition days_in_month (y m : Z) : Z :=
  if m =? 2 then (if leap y then 29 else 28)
  else if (m =? 4) || (m =? 6) || (m =? 9) || (m =? 11) then 30
  else 31.

(** [%Y-%m-%d]: a four-digit year, a month and a day of that month. *)
Definition parse_date (s : string) : outcome datetime :=
  match split_at "-" s with
  | [y; m; d] =>
      match number y, number m, number d with
      | Some y', Some m', Some d' =>
          if (String.length y =? 4)%nat && (1 <=? m') && (m' <=? 12)
             && (1 <=? d') && (d' <=? days_in_month y' m')
          then Returned (mkDatetime (mkDate y' m' d') midnight)
          else Raised ValueError
      | _, _, _ => Raised ValueError
      end
  | _ => Raised ValueError
  end.

(** [%I:%M %p]: an hour of the 12-hour clock, a minute, [AM] or [PM]; the
    date of the result is [1900-01-01]. *)
Definition parse_time (s : string) : outcome datetime :=
  match split_at " " s with
  | [hm; p] =>
      match split_at ":" hm with
      | [h; mi] =>
          match number h, number mi with
          | Some h', Some mi' =>
              if (1 <=? h') && (h' <=? 12) && (0 <=? mi') && (mi' <=? 59)
              then
                if String.eqb p "AM" || String.eqb p "am"
                then Returned (mkDatetime (mkDate 1900 1 1)
                                          (mkTime (h' mod 12) mi' 0))
                else if String.eqb p "PM" || String.eqb p "pm"
                then Returned (mkDatetime (mkDate 1900 1 1)
                                          (mkTime (h' mod 12 + 12) mi' 0))
                else Raised ValueError
              else Raised ValueError
          | _, _ => Raised ValueError
          end
      | _ => Raised ValueError
      end
  | _ => Raised ValueError
  end.

Definition strptime (s fmt : string) : outcome datetime :=
  if String.eqb fmt "%Y-%m-%d" then parse_date s
  else if String.eqb fmt "%I:%M %p" then parse_time s
  else Raised ValueError.

Definition tz_database (zone : string) : option string :=
  if String.eqb zone "UTC" || String.eqb zone "Europe/Berlin"
     || String.eqb zone "America/New_York"
  then Some zone else None.

(** The calendar object is the event it holds; its text, one line per
    field that the examples look at. *)
Definition ics_calendar (f : event_fields string)
  : outcome (event_fields string) := Returned f.

Definition ics_str (f : event_fields string) : outcome string :=
  Returned ("SUMMARY:" ++ name f ++ ";TZID:" ++ tzinfo (begin f)
            ++ ";DTSTART:" ++ pretty (hour (dt_time (naive (begin f))))
            ++ ";DTEND:" ++ pretty (hour (dt_time (naive (end_ f))))).

(** *** The task models of lines 159-165, read strictly: an integer [id], a
    string [status], and an [output] that is absent, [null] or a dict.
    (pydantic also accepts some values it can convert; the properties below
    hold for every validator.) *)
Definition parse_task (response : json) : option Task :=
  match response with
  | JDict d =>
      match dict_lookup "task" d with
      | Some (JDict t) =>
          match dict_lookup "id" t, dict_lookup "status" t with
          | Some (JInt id), Some (JStr status) =>
              match dict_lookup "output" t with
              | None | Some JNull => Some (mkTask id status JNull)
              | Some (JDict o) => Some (mkTask id status (JDict o))
              | Some _ => None
              end
          | _, _ => None
          end
      | _ => None
      end
  | _ => None
  end.

(** A response [{task: {id, status}}] and one with an output. *)
Definition task_response (id : Z) (status : string) : json :=
  JDict [("task", JDict [("id", JInt id); ("status", JStr status)])].

Definition task_response_with (id : Z) (status : string) (out : json)
  : json :=
  JDict [("task", JDict [("id", JInt id); ("status", JStr status);
                         ("output", out)])].

Definition answer_42 : json := JDict [("answer", JStr "42")].

(** Submission accepted, then [PENDING], [PENDING], [STATUS_SUCCESSFUL] with
    the answer. *)
Definition answered : world :=
  mkWorld [Returned (task_response 7 "STATUS_SCHEDULED");
           Returned (task_response 7 "PENDING");
           Returned (task_response 7 "PENDING");
           Returned (task_response_with 7 "STATUS_SUCCESSFUL"
                       (JDict [("output", answer_42)]))]
          (Raised (RemoteError "no route")) [].

(** The task fails at the second poll. *)
Definition failing : world :=
  mkWorld [Returned (task_response 7 "STATUS_SCHEDULED");
           Returned (task_response 7 "STATUS_RUNNING");
           Returned (task_response 7 "STATUS_FAILED")]
          (Raised (RemoteError "no route")) [].

(** The task never leaves a status that is neither terminal one. *)
Definition stuck : world :=
  mkWorld [] (Returned (task_response 1 "STATUS_SUCCEEDED_TYPO")) [].

(** The task succeeds without the [output] key in its output. *)
Definition hollow : world :=
  mkWorld [Returned (task_response 7 "STATUS_SCHEDULED");
           Returned (task_response_with 7 "STATUS_SUCCESSFUL"
                       (JDict [("result", answer_42)]))]
          (Raised (RemoteError "no route")) [].

(** The second poll comes back with a document that is no task. *)
Definition garbled : world :=
  mkWorld [Returned (task_response 7 "STATUS_SCHEDULED");
           Returned (task_response 7 "PENDING");
           Returned (JDict [("error", JStr "gone")])]
          (Returned (task_response 7 "STATUS_SUCCESSFUL")) [].

End Demo.

(** ** [get_coordinates_for_address] (lines 125-138) *)

Module Geocoding.

(** What the tool raises: [Exception(arg)] with the JSON value it was given
    as argument (lines 135 and 137), or an exception of a subscript, of
    [len] or of the request. *)
Inductive raised : Type :=
  | ExceptionWith (arg : json)
  | Other (e : exn).

(** The tool returns the pair [(lat, lon)] or raises. *)
Inductive answer : Type :=
  | Coordinates (lat lon : json)
  | Fails (r : raised).

(** [len(v)]: the number of keys of a dict, of elements of a list, of
    characters of a string; [TypeError] on the other values. *)
Definition len (v : json) : outcome Z :=
  match v with
  | JDict d => Returned (Z.of_nat (length (remove_dups (map fst d))))
  | JList l => Returned (Z.of_nat (length l))
  | JStr s => Returned (Z.of_nat (String.length s))
  | _ => Raised TypeError
  end.

Definition of_pair (o : outcome (json * json)) : answer :=
  match o with
  | Returned (lat, lon) => Coordinates lat lon
  | Raised e => Fails (Other e)
  end.

(** Lines 134-138, on the document [json] that [res.json()] returned. *)
Definition coordinates_of (address : string) (json : json) : answer :=
  match contains "error" json with
  | Raised e => Fails (Other e)
  | Returned true =>
      match getitem json "error" with
      | Returned arg => Fails (ExceptionWith arg)
      | Raised e => Fails (Other e)
      end
  | Returned false =>
      match len json with
      | Raised e => Fails (Other e)
      | Returned n =>
          if n =? 0
          then Fails (ExceptionWith
                        (JStr ("No results for address " ++ address)))
          else of_pair (first <~ getitem0 json ;;
                        lat <~ getitem first "lat" ;;
                        first' <~ getitem0 json ;;
                        lon <~ getitem first' "lon" ;;
                        Returned (lat, lon))%py
      end
  end.

Definition search_url : string := "https://nominatim.openstreetmap.org/search".

(** The [params=] of line 132. *)
Definition search_params (address : string) : list (string * string) :=
  [("q", address); ("format", "json"); ("addressdetails", "1");
   ("extratags", "1"); ("namedetails", "1"); ("limit", "1")].

Section Tool.
Context {H : Type}.
Variable httpx_get_json :
  string -> list (string * string) -> H -> outcome json * H.

Definition get_coordinates_for_address (address : string) (h : H)
  : answer * H * list Weather.event :=
  match httpx_get_json search_url (search_params address) h with
  | (o, h') =>
      (match o with
       | Returned json => coordinates_of address json
       | Raised e => Fails (Other e)
       end,
       h', [Weather.EvHttpGet search_url (search_params address) o])
  end.
End Tool.

Definition place (lat lon : string) : json :=
  JDict [("place_id", JInt 1); ("lat", JStr lat); ("lon", JStr lon)].

End Geocoding.

(** ** What [get_tools] returns (lines 210-223) *)

Module Registry.
Import Calendar Talk ContextChat Weather Geocoding.

Inductive tool : Type :=
  | list_calendars_tool
  | schedule_event_tool
  | list_talk_conversations_tool
  | send_message_to_conversation_tool
  | list_messages_in_conversation_tool
  | get_coordinates_for_address_tool
  | get_current_weather_for_coordinates_tool
  | ask_context_chat_tool.

(** Lines 210-213. *)
Definition dangerous_tools : list tool :=
  [schedule_event_tool; send_message_to_conversation_tool].

(** Lines 214-221. *)
Definition safe_tools : list tool :=
  [list_calendars_tool; list_talk_conversations_tool;
   list_messages_in_conversation_tool; ask_context_chat_tool;
   get_coordinates_for_address_tool;
   get_current_weather_for_coordinates_tool].

(** A call of one of the tools, with its arguments. *)
Inductive invocation : Type :=
  | CallListCalendars
  | CallScheduleEvent (calendar_name title description : string)
      (start_date end_date : string)
      (start_time end_time location timezone : option string)
  | CallListTalkConversations
  | CallSendMessage (conversation_name message : string)
  | CallListMessages (conversation_name : string) (n_messages : Z)
  | CallGetCoordinates (address : string)
  | CallGetWeather (lat lon : string)
  | CallAskContextChat (question : string).

Definition tool_of (c : invocation) : tool :=
  match c with
  | CallListCalendars => list_calendars_tool
  | CallScheduleEvent _ _ _ _ _ _ _ _ _ => schedule_event_tool
  | CallListTalkConversations => list_talk_conversations_tool
  | CallSendMessage _ _ => send_message_to_conversation_tool
  | CallListMessages _ _ => list_messages_in_conversation_tool
  | CallGetCoordinates _ => get_coordinates_for_address_tool
  | CallGetWeather _ _ => get_current_weather_for_coordinates_tool
  | CallAskContextChat _ => ask_context_chat_tool
  end.

Definition returned {A} (r : result A) : bool :=
  match r with Ok _ => true | _ => false end.

Section Run.
Context {W H Principal Cal Conv TzInfo IcsCalendar : Type}.
Variable nc : Nextcloud W Principal Cal Conv.
Variable strptime : string -> string -> outcome datetime.
Variable tz_database : string -> option TzInfo.
Variable ics_calendar : event_fields TzInfo -> outcome IcsCalendar.
Variable ics_str : IcsCalendar -> outcome string.
Variable parse_task : json -> option Task.
Variable httpx_get_json :
  string -> list (string * string) -> H -> outcome json * H.

(** What a run leaves behind of a tool working on [nc]: whether it returned
    a value, the server, and the calls made. *)
Definition on_nc {A} (m : M W (Nc.event Principal Cal Conv) A) (w : W) (h : H)
  : bool * (W * H)
    * list (Nc.event Principal Cal Conv + Weather.event) :=
  match m w with
  | (r, w', tr) => (returned r, (w', h), map inl tr)
  end.

(** A call of a tool, on the server and the network. *)
Definition run (c : invocation) (w : W) (h : H)
  : bool * (W * H)
    * list (Nc.event Principal Cal Conv + Weather.event) :=
  match c with
  | CallListCalendars => on_nc (list_calendars nc) w h
  | CallScheduleEvent calendar_name title description start_date end_date
      start_time end_time location timezone =>
      on_nc (schedule_event nc strptime tz_database ics_calendar ics_str
               calendar_name title description start_date end_date
               start_time end_time location timezone) w h
  | CallListTalkConversations => on_nc (list_talk_conversations nc) w h
  | CallSendMessage conversation_name message =>
      on_nc (send_message_to_conversation nc conversation_name message) w h
  | CallListMessages conversation_name n_messages =>
      on_nc (list_messages_in_conversation nc conversation_name n_messages)
        w h
  | CallGetCoordinates address =>
      match get_coordinates_for_address httpx_get_json address h with
      | (a, h', tr) =>
          (match a with Coordinates _ _ => true | Fails _ => false end,
           (w, h'), map inr tr)
      end
  | CallGetWeather lat lon =>
      match get_current_weather_for_coordinates httpx_get_json lat lon h with
      | (r, h', tr) => (returned r, (w, h'), map inr tr)
      end
  | CallAskContextChat question =>
      on_nc (ask_context_chat nc parse_task question) w h
  end.

End Run.

(** The calls that change what the user has on the server: adding an event
    to a calendar and sending a message. *)
Definition is_write {Principal Cal Conv : Type}
    (e : Nc.event Principal Cal Conv + Weather.event) : bool :=
  match e with
  | inl (EvAddEvent _ _ _) => true
  | inl (EvSendMessage _ _ _) => true
  | _ => false
  end.

End Registry.

(** ** Reading the traces of the tools *)

Module Observe.
Import ContextChat.

Section Trace.
Context {Principal Cal Conv : Type}.

(** The exception that a remote call came back with, if it raised. *)
Definition raised_by (e : event Principal Cal Conv) : option exn :=
  match e with
  | EvPrincipal (Raised x) => Some x
  | EvCalendars (Raised x) => Some x
  | EvAddEvent _ _ (Raised x) => Some x
  | EvConversations (Raised x) => Some x
  | EvSendMessage _ _ (Raised x) => Some x
  | EvReceiveMessages _ _ _ (Raised x) => Some x
  | EvOcs _ _ _ (Raised x) => Some x
  | _ => None
  end.

(** The seconds slept in a trace. *)
Fixpoint total_sleep (tr : list (event Principal Cal Conv)) : Z :=
  match tr with
  | [] => 0
  | EvSleep secs :: tr' => secs + total_sleep tr'
  | _ :: tr' => total_sleep tr'
  end.

(** What was logged, in order. *)
Fixpoint logged (tr : list (event Principal Cal Conv))
  : list (LogLvl * Task) :=
  match tr with
  | [] => []
  | EvLog lvl task :: tr' => (lvl, task) :: logged tr'
  | _ :: tr' => logged tr'
  end.

(** What the OCS requests of a trace came back with, in order. *)
Fixpoint ocs_outcomes (tr : list (event Principal Cal Conv))
  : list (outcome json) :=
  match tr with
  | [] => []
  | EvOcs _ _ _ res :: tr' => res :: ocs_outcomes tr'
  | _ :: tr' => ocs_outcomes tr'
  end.

Definition is_add_event (e : event Principal Cal Conv) : bool :=
  match e with EvAddEvent _ _ _ => true | _ => false end.

Definition is_send_message (e : event Principal Cal Conv) : bool :=
  match e with EvSendMessage _ _ _ => true | _ => false end.

(** An event that is neither of the two. *)
Definition quiet_event (e : event Principal Cal Conv) : Prop :=
  is_add_event e = false /\ is_send_message e = false.

End Trace.

(** Worlds for the examples: the submission comes back with a task that
    has succeeded already; the server refuses the second poll. *)
Definition done_at_once : Demo.world :=
  Demo.mkWorld
    [Returned (Demo.task_response_with 9 "STATUS_SUCCESSFUL"
                 (JDict [("output", Demo.answer_42)]))]
    (Raised (RemoteError "no route")) [].

Definition cut_off : Demo.world :=
  Demo.mkWorld
    [Returned (Demo.task_response 7 "STATUS_SCHEDULED");
     Returned (Demo.task_response 7 "PENDING")]
    (Raised (RemoteError "no route")) [].

End Observe.

(** * Properties *)

(** ** The weather tool *)

Module WeatherProps.
Import Weather.

Lemma getitem_Returned v k x :
  getitem v k = Returned x
  <-> exists d, v = JDict d /\ dict_lookup k d = Some x.
Proof.
  split.
  - destruct v; simpl; try discriminate.
    destruct (dict_lookup k d) eqn:E; [|discriminate].
    intros [= ->]. eauto.
  - intros (d & -> & H). simpl. now rewrite H.
Qed.

Lemma contains_getitem v k x :
  getitem v k = Returned x -> contains k v = Returned true.
Proof.
  intros (d & -> & H)%getitem_Returned. simpl. f_equal.
  apply bool_decide_eq_true. eauto.
Qed.

Lemma contains_raised k v e : contains k v = Raised e -> e = TypeError.
Proof. destruct v; simpl; congruence. Qed.

Lemma getitem_raised v k e :
  getitem v k = Raised e -> e = TypeError \/ e = KeyError (KStr k).
Proof.
  destruct v; simpl; try (intros [= <-]; auto).
  destruct (dict_lookup k d); [discriminate | intros [= <-]; auto].
Qed.

Lemma getitem_missing d k :
  dict_lookup k d = None -> getitem (JDict d) k = Raised (KeyError (KStr k)).
Proof. simpl. now intros ->. Qed.

Lemma getitem0_raised v e :
  getitem0 v = Raised e ->
  e = TypeError \/ e = IndexError \/ e = KeyError (KInt 0).
Proof.
  destruct v as [| | | |s|l|d]; simpl; try (intros [= <-]; auto).
  - destruct s; [intros [= <-]; auto | discriminate].
  - destruct l; [intros [= <-]; auto | discriminate].
Qed.

(** Closes a goal whose hypotheses say that a subscript or a membership
    test raised the descriptive error. *)
Ltac foreign_raise :=
  match goal with
  | H : contains _ _ = Raised _ |- _ =>
      apply contains_raised in H; subst; discriminate
  | H : getitem _ _ = Raised _ |- _ =>
      apply getitem_raised in H; destruct H; subst; discriminate
  | H : getitem0 _ = Raised _ |- _ =>
      apply getitem0_raised in H; destruct H as [|[|]]; subst; discriminate
  end.

(** The guard of line 154 and nothing else raises the descriptive error. *)
Lemma descriptive_error_iff j :
  weather_details j = Raised descriptive_error
  <-> lacks_properties j \/ lacks_timeseries j \/ empty_timeseries j.
Proof.
  unfold weather_details, lacks_properties, lacks_timeseries, empty_timeseries.
  split.
  - destruct (contains "properties" j) as [[]|] eqn:Hp; simpl;
      intros H; try foreign_raise; [|auto].
    destruct (getitem j "properties") as [props|] eqn:Hg; simpl in H;
      try foreign_raise.
    destruct (contains "timeseries" props) as [[]|] eqn:Ht; simpl in H;
      try foreign_raise; [|eauto 6].
    destruct (getitem props "timeseries") as [ts|] eqn:Hts; simpl in H;
      try foreign_raise.
    destruct (truthy ts) eqn:Htr; simpl in H; [|eauto 8].
    destruct (getitem0 ts) as [entry|] eqn:H0; simpl in H;
      try foreign_raise.
    destruct (getitem entry "data") as [data|] eqn:Hd; simpl in H;
      try foreign_raise.
    destruct (getitem data "instant") as [inst|] eqn:Hi; simpl in H;
      try foreign_raise.
  - intros [H | [(props & Hg & Ht) | (props & ts & Hg & Hts & Htr)]].
    + now rewrite H.
    + rewrite (contains_getitem _ _ _ Hg). simpl. rewrite Hg. simpl.
      now rewrite Ht.
    + rewrite (contains_getitem _ _ _ Hg). simpl. rewrite Hg. simpl.
      rewrite (contains_getitem _ _ _ Hts). simpl. rewrite Hts. simpl.
      now rewrite Htr.
Qed.

(** Past the guard, the chain of subscripts of line 156 is what runs. *)
Lemma past_guard j props entry rest :
  getitem j "properties" = Returned props ->
  getitem props "timeseries" = Returned (JList (entry :: rest)) ->
  weather_details j
  = (data <~ getitem entry "data" ;;
     instant <~ getitem data "instant" ;;
     getitem instant "details")%py.
Proof.
  intros Hg Hts. unfold weather_details.
  rewrite (contains_getitem _ _ _ Hg). simpl. rewrite Hg. simpl.
  rewrite (contains_getitem _ _ _ Hts). simpl. now rewrite Hts.
Qed.

(** A returned value sits at the end of the full path of keys. *)
Lemma returned_value_path j v :
  weather_details j = Returned v ->
  exists props entry rest data instant,
    getitem j "properties" = Returned props
    /\ getitem props "timeseries" = Returned (JList (entry :: rest))
    /\ getitem entry "data" = Returned data
    /\ getitem data "instant" = Returned instant
    /\ getitem instant "details" = Returned v.
Proof.
  unfold weather_details.
  destruct (contains "properties" j) as [[]|]; simpl; try discriminate.
  destruct (getitem j "properties") as [props|] eqn:Hg; simpl;
    try discriminate.
  destruct (contains "timeseries" props) as [[]|]; simpl; try discriminate.
  destruct (getitem props "timeseries") as [ts|] eqn:Hts; simpl;
    try discriminate.
  destruct (truthy ts); simpl; try discriminate.
  destruct (getitem0 ts) as [entry|] eqn:H0; simpl; try discriminate.
  destruct (getitem entry "data") as [data|] eqn:Hd; simpl;
    try discriminate.
  destruct (getitem data "instant") as [inst|] eqn:Hi; simpl;
    try discriminate.
  intros Hv.
  destruct ts as [| | | |s|l|d]; simpl in H0; try discriminate.
  - destruct s; try discriminate. injection H0 as <-. discriminate.
  - destruct l as [|x rest]; try discriminate. injection H0 as ->.
    exists props, entry, rest, data, inst. auto.
Qed.

Lemma run_weather {W}
    (httpx : string -> list (string * string) -> W -> outcome json * W)
    lat lon w j w' :
  httpx weather_url [("lat", lat); ("lon", lon)] w = (Returned j, w') ->
  get_current_weather_for_coordinates httpx lat lon w
  = (of_outcome (weather_details j), w',
     [EvHttpGet weather_url [("lat", lat); ("lon", lon)] (Returned j)]).
Proof.
  intros H. unfold get_current_weather_for_coordinates, bind, call, lift.
  rewrite H. simpl. now destruct (weather_details j).
Qed.

(** C10. Once the weather service has answered with a document [j], the
    tool raises its descriptive error exactly when the document lacks
    ['properties'], lacks ['timeseries'] under it, or has an empty
    timeseries there. When the first entry of the timeseries lacks ['data'],
    its data lacks ['instant'], or its instant lacks ['details'], the tool
    raises the [KeyError] of the unguarded subscript instead. Whenever the
    tool returns a value, all those keys are present and the value is the
    one found under them. (For a timeseries that is a list, empty means
    [[]]; the guard also takes the other falsy values for empty.) *)
Theorem weather_guard_and_unguarded_lookups {W}
    (httpx : string -> list (string * string) -> W -> outcome json * W)
    (lat lon : string) (w w' : W) (j : json) :
  httpx weather_url [("lat", lat); ("lon", lon)] w = (Returned j, w') ->
  let r := (get_current_weather_for_coordinates httpx lat lon w).1.1 in
  (r = Raise descriptive_error
   <-> lacks_properties j \/ lacks_timeseries j \/ empty_timeseries j)
  /\ (forall props entry rest,
        getitem j "properties" = Returned props ->
        getitem props "timeseries" = Returned (JList (entry :: rest)) ->
        (forall e, entry = JDict e -> dict_lookup "data" e = None ->
                   r = Raise (KeyError (KStr "data")))
        /\ (forall d, getitem entry "data" = Returned (JDict d) ->
                      dict_lookup "instant" d = None ->
                      r = Raise (KeyError (KStr "instant")))
        /\ (forall data i, getitem entry "data" = Returned data ->
                           getitem data "instant" = Returned (JDict i) ->
                           dict_lookup "details" i = None ->
                           r = Raise (KeyError (KStr "details"))))
  /\ (forall v, r = Ok v ->
        exists props entry rest data instant,
          getitem j "properties" = Returned props
          /\ getitem props "timeseries" = Returned (JList (entry :: rest))
          /\ getitem entry "data" = Returned data
          /\ getitem data "instant" = Returned instant
          /\ getitem instant "details" = Returned v)
  /\ (forall props l,
        getitem j "properties" = Returned props ->
        getitem props "timeseries" = Returned (JList l) ->
        (r = Raise descriptive_error <-> l = [])).
Proof.
  intros Hhttp r. subst r. rewrite (run_weather _ _ _ _ _ _ Hhttp). simpl.
  split; [|split; [|split]]; cycle 3.
  { intros props l Hg Hts. destruct l as [|entry rest].
    - split; [done|]. intros _.
      assert (weather_details j = Raised descriptive_error) as ->; [|done].
      apply descriptive_error_iff. right. right. now exists props, (JList []).
    - split; [|done]. intros H.
      assert (weather_details j = Raised descriptive_error) as Hd
        by (destruct (weather_details j); simpl in H; congruence).
      apply descriptive_error_iff in Hd
        as [Hd | [(p & Hp & Hd) | (p & ts & Hp & Hts' & Hd)]].
      + unfold lacks_properties in Hd.
        rewrite (contains_getitem _ _ _ Hg) in Hd. discriminate.
      + assert (p = props) as -> by congruence.
        rewrite (contains_getitem _ _ _ Hts) in Hd. discriminate.
      + assert (p = props) as -> by congruence.
        assert (ts = JList (entry :: rest)) as -> by congruence.
        discriminate. }
  - rewrite <- descriptive_error_iff.
    destruct (weather_details j); simpl; split; congruence.
  - intros props entry rest Hg Hts.
    rewrite (past_guard _ _ _ _ Hg Hts).
    split; [|split].
    + intros e -> He. now rewrite (getitem_missing _ _ He).
    + intros d Hd Hi. rewrite Hd. simpl. now rewrite Hi.
    + intros data i Hd Hi Hdet. rewrite Hd. simpl. rewrite Hi. simpl.
      now rewrite Hdet.
  - intros v Hv. apply returned_value_path.
    destruct (weather_details j); simpl in Hv; congruence.
Qed.

Lemma weather_guard_and_unguarded_lookups_witness :
  fixed_service sample_forecast weather_url
    [("lat", "59.91"); ("lon", "10.75")] tt
  = (Returned sample_forecast, tt)
  /\ (get_current_weather_for_coordinates (fixed_service sample_forecast)
        "59.91" "10.75" tt).1.1 = Ok sample_details
  /\ ((get_current_weather_for_coordinates (fixed_service sample_forecast)
         "59.91" "10.75" tt).1.1 = Raise descriptive_error
      <-> lacks_properties sample_forecast
          \/ lacks_timeseries sample_forecast
          \/ empty_timeseries sample_forecast).
Proof.
  split; [reflexivity|]. split; [reflexivity|].
  apply (weather_guard_and_unguarded_lookups (fixed_service sample_forecast)
           "59.91" "10.75" tt tt sample_forecast).
  reflexivity.
Defined.

(** The three unguarded subscripts on concrete documents. *)
Example weather_entry_without_data :
  weather_details
    (JDict [("properties", JDict [("timeseries", JList [JDict []])])])
  = Raised (KeyError (KStr "data")).
Proof. reflexivity. Qed.

Example weather_empty_timeseries :
  weather_details (JDict [("properties", JDict [("timeseries", JList [])])])
  = Raised descriptive_error.
Proof. reflexivity. Qed.

End WeatherProps.

(** ** The calendar and Talk tools *)

Module CalendarTalkProps.
Import Calendar Talk.

Section DictBy.
Context {A : Type} (key : A -> string).

Lemma foldl_insert_None (l : list A) (m : gmap string A) (k : string) :
  foldl (fun m x => <[key x := x]> m) m l !! k = None
  <-> m !! k = None /\ k ∉ key <$> l.
Proof.
  revert m. induction l as [|x l IH]; intros m; simpl.
  - split; [intros H; split; [done | apply not_elem_of_nil] | tauto].
  - rewrite IH, not_elem_of_cons, lookup_insert_None.
    intuition congruence.
Qed.

Lemma foldl_insert_Some (l : list A) (m : gmap string A) (k : string) x :
  foldl (fun m x => <[key x := x]> m) m l !! k = Some x ->
  (x ∈ l /\ key x = k) \/ m !! k = Some x.
Proof.
  revert m. induction l as [|y l IH]; intros m; simpl; [auto|].
  intros [[Hin Hk] | H]%IH.
  - left. split; [now apply elem_of_cons; right | done].
  - apply lookup_insert_Some in H as [[<- <-] | [_ H]].
    + left. split; [apply elem_of_cons; now left | done].
    + now right.
Qed.

(** A name missing from the listing: the subscript raises [KeyError]. *)
Lemma subscript_missing (l : list A) (k : string) :
  k ∉ key <$> l -> subscript (dict_by key l) k = Raised (KeyError (KStr k)).
Proof.
  intros H. unfold subscript, dict_by.
  assert (foldl (fun m x => <[key x := x]> m) ∅ l !! k = None) as ->; [|done].
  apply foldl_insert_None. split; [apply lookup_empty | done].
Qed.

(** A listed name: the subscript yields a listed object carrying it. *)
Lemma subscript_present (l : list A) (k : string) :
  k ∈ key <$> l ->
  exists x, subscript (dict_by key l) k = Returned x /\ key x = k /\ x ∈ l.
Proof.
  intros H. unfold subscript, dict_by.
  destruct (foldl (fun m x => <[key x := x]> m) ∅ l !! k) as [x|] eqn:E.
  - exists x. split; [done|].
    apply foldl_insert_Some in E as [[? ?] | E]; [done|].
    now rewrite lookup_empty in E.
  - apply foldl_insert_None in E as [_ E]. done.
Qed.

End DictBy.

(** Splits a hypothesis [e ∈ [e1; ...; en]] into its cases. *)
Ltac trace_cases H :=
  repeat (apply elem_of_cons in H as [H | H]);
  try (apply elem_of_nil in H; contradiction);
  try discriminate H.

Section CalendarTool.
Context {W Principal Cal Conv TzInfo IcsCalendar : Type}.
Variable nc : Nextcloud W Principal Cal Conv.
Variable strptime : string -> string -> outcome datetime.
Variable tz_database : string -> option TzInfo.
Variable ics_calendar : event_fields TzInfo -> outcome IcsCalendar.
Variable ics_str : IcsCalendar -> outcome string.



(** The run of the tool once the event is built and the calendars are
    listed: the lookup, the text of the event, and the one [add_event]. *)
Lemma schedule_event_listed name title descr sd ed st et loc tz w
    times zone c p w1 L w2 :
  event_times strptime sd ed st et = Returned times ->
  pytz_timezone tz_database tz = Returned zone ->
  ics_calendar (mkEventFields title (localize zone times.1)
                  (localize zone times.2) descr loc) = Returned c ->
  cal_principal nc w = (Returned p, w1) ->
  principal_calendars nc p w1 = (Returned L, w2) ->
  schedule_event nc strptime tz_database ics_calendar ics_str
    name title descr sd ed st et loc tz w
  = match subscript (dict_by (cal_name nc) L) name with
    | Raised e =>
        (Raise e, w2, [EvPrincipal (Returned p); EvCalendars (Returned L)])
    | Returned cal =>
        match ics_str c with
        | Raised e =>
            (Raise e, w2,
             [EvPrincipal (Returned p); EvCalendars (Returned L)])
        | Returned text =>
            let '(o, w3) := calendar_add_event nc cal text w2 in
            (match o with Returned _ => Ok true | Raised e => Raise e end,
             w3,
             [EvPrincipal (Returned p); EvCalendars (Returned L);
              EvAddEvent cal text o])
        end
    end.
Proof.
  intros Ht Hz Hc Hp HL. unfold schedule_event, bind, lift, call, ret.
  rewrite Ht. simpl. rewrite Hz. simpl. rewrite Hc. simpl.
  rewrite Hp. simpl. rewrite HL. simpl.
  destruct (subscript (dict_by (cal_name nc) L) name) as [cal|e]; simpl;
    [|done].
  destruct (ics_str c) as [text|e]; simpl; [|done].
  now destruct (calendar_add_event nc cal text w2) as [[u|e] w3].
Qed.

Lemma schedule_event_bad_ics name title descr sd ed st et loc tz w
    times zone e :
  event_times strptime sd ed st et = Returned times ->
  pytz_timezone tz_database tz = Returned zone ->
  ics_calendar (mkEventFields title (localize zone times.1)
                  (localize zone times.2) descr loc) = Raised e ->
  schedule_event nc strptime tz_database ics_calendar ics_str
    name title descr sd ed st et loc tz w
  = (Raise e, w, []).
Proof.
  intros Ht Hz Hc. unfold schedule_event, bind, lift.
  rewrite Ht. simpl. rewrite Hz. simpl. now rewrite Hc.
Qed.

(** Where the zone lookup raises, the tool raises the same, having called
    nothing. *)
Lemma schedule_event_bad_zone name title descr sd ed st et loc tz w times e :
  event_times strptime sd ed st et = Returned times ->
  pytz_timezone tz_database tz = Raised e ->
  schedule_event nc strptime tz_database ics_calendar ics_str
    name title descr sd ed st et loc tz w
  = (Raise e, w, []).
Proof.
  intros Ht Hz. unfold schedule_event, bind, lift. now rewrite Ht, Hz.
Qed.

Lemma schedule_event_bad_times name title descr sd ed st et loc tz w e :
  event_times strptime sd ed st et = Raised e ->
  schedule_event nc strptime tz_database ics_calendar ics_str
    name title descr sd ed st et loc tz w
  = (Raise e, w, []).
Proof. intros Ht. unfold schedule_event, bind, lift. now rewrite Ht. Qed.

End CalendarTool.

(** Runs a tool to its possible ends: one goal per outcome of each step,
    in the order of the steps. *)
Ltac run_step :=
  match goal with
  | |- context [of_outcome ?o] =>
      lazymatch o with
      | Returned _ => fail
      | Raised _ => fail
      | _ => let E := fresh "E" in destruct o eqn:E; simpl
      end
  | |- context [cal_principal ?nc ?w] =>
      let E := fresh "E" in
      destruct (cal_principal nc w) as [[?|?] ?] eqn:E; simpl
  | |- context [principal_calendars ?nc ?p ?w] =>
      let E := fresh "E" in
      destruct (principal_calendars nc p w) as [[?|?] ?] eqn:E; simpl
  | |- context [calendar_add_event ?nc ?c ?t ?w] =>
      let E := fresh "E" in
      destruct (calendar_add_event nc c t w) as [[?|?] ?] eqn:E; simpl
  | |- context [talk_get_user_conversations ?nc ?w] =>
      let E := fresh "E" in
      destruct (talk_get_user_conversations nc w) as [[?|?] ?] eqn:E; simpl
  | |- context [talk_send_message ?nc ?m ?c ?w] =>
      let E := fresh "E" in
      destruct (talk_send_message nc m c w) as [[?|?] ?] eqn:E; simpl
  | |- context [talk_receive_messages ?nc ?c ?b ?n ?w] =>
      let E := fresh "E" in
      destruct (talk_receive_messages nc c b n w) as [[?|?] ?] eqn:E; simpl
  end.

Ltac run_steps := simpl; repeat run_step.

Section Lookups.
Context {W Principal Cal Conv TzInfo IcsCalendar : Type}.
Variable nc : Nextcloud W Principal Cal Conv.
Variable strptime : string -> string -> outcome datetime.
Variable tz_database : string -> option TzInfo.
Variable ics_calendar : event_fields TzInfo -> outcome IcsCalendar.
Variable ics_str : IcsCalendar -> outcome string.

(** Either the event cannot be built, and the tool raises having called
    nothing, or it is built. *)
Lemma schedule_event_local name title descr sd ed st et loc tz w :
  (exists e,
     schedule_event nc strptime tz_database ics_calendar ics_str
       name title descr sd ed st et loc tz w = (Raise e, w, [])
     /\ forall times zone c,
          event_times strptime sd ed st et = Returned times ->
          pytz_timezone tz_database tz = Returned zone ->
          ics_calendar (mkEventFields title (localize zone times.1)
                          (localize zone times.2) descr loc) = Returned c ->
          False)
  \/ (exists times zone c,
        event_times strptime sd ed st et = Returned times
        /\ pytz_timezone tz_database tz = Returned zone
        /\ ics_calendar (mkEventFields title (localize zone times.1)
                           (localize zone times.2) descr loc) = Returned c).
Proof.
  destruct (event_times strptime sd ed st et) as [times|e] eqn:Ht.
  - destruct (pytz_timezone tz_database tz) as [zone|e] eqn:Hz.
    + destruct (ics_calendar (mkEventFields title (localize zone times.1)
                                (localize zone times.2) descr loc))
        as [c|e] eqn:Hc.
      * right. now exists times, zone, c.
      * left. exists e. split.
        -- now apply schedule_event_bad_ics with (times := times)
                                                 (zone := zone).
        -- intros times' zone' c' [= <-] [= <-] Hc'. congruence.
    + left. exists e. split.
      * now apply schedule_event_bad_zone with (times := times).
      * intros times' zone' c' _ Hz' _. discriminate.
  - left. exists e. split.
    + now apply schedule_event_bad_times.
    + intros times' zone' c' Ht' _ _. discriminate.
Qed.

(** The run of [send_message_to_conversation] once the conversations are
    listed. *)
Lemma send_message_listed name message w L w1 :
  talk_get_user_conversations nc w = (Returned L, w1) ->
  send_message_to_conversation nc name message w
  = match subscript (dict_by (conv_display_name nc) L) name with
    | Raised e => (Raise e, w1, [EvConversations (Returned L)])
    | Returned c =>
        let '(o, w2) := talk_send_message nc message c w1 in
        (match o with Returned _ => Ok true | Raised e => Raise e end, w2,
         [EvConversations (Returned L); EvSendMessage message c o])
    end.
Proof.
  intros HL. unfold send_message_to_conversation, bind, lift, call, ret.
  rewrite HL. simpl.
  destruct (subscript (dict_by (conv_display_name nc) L) name) as [c|e];
    simpl; [|done].
  now destruct (talk_send_message nc message c w1) as [[u|e] w2].
Qed.

(** The run of [list_messages_in_conversation] once the conversations are
    listed. *)
Lemma list_messages_listed name n w L w1 :
  talk_get_user_conversations nc w = (Returned L, w1) ->
  list_messages_in_conversation nc name n w
  = match subscript (dict_by (conv_display_name nc) L) name with
    | Raised e => (Raise e, w1, [EvConversations (Returned L)])
    | Returned c =>
        let '(o, w2) := talk_receive_messages nc c false n w1 in
        (match o with
         | Returned messages => Ok (format_message <$> messages)
         | Raised e => Raise e
         end, w2,
         [EvConversations (Returned L); EvReceiveMessages c false n o])
    end.
Proof.
  intros HL. unfold list_messages_in_conversation, bind, lift, call, ret.
  rewrite HL. simpl.
  destruct (subscript (dict_by (conv_display_name nc) L) name) as [c|e];
    simpl; [|done].
  now destruct (talk_receive_messages nc c false n w1) as [[ms|e] w2].
Qed.

End Lookups.

(** C7. In [schedule_event], [send_message_to_conversation] and
    [list_messages_in_conversation], when the server lists the objects [L]:
    if the given name is the name of none of them, the tool raises and no
    event is added, no message sent and none received, the error being the
    [KeyError] of the lookup, raised right after the listing (for
    [schedule_event], where the event could be built; where not, it has
    raised before); if the name is that of a listed object, the lookup
    yields a listed object [c] of this name, and the tool goes on to call
    [add_event], [send_message] or [receive_messages] on [c], and on no
    other object. *)
Theorem name_lookup_contract
    {W Principal Cal Conv TzInfo IcsCalendar : Type}
    (nc : Nextcloud W Principal Cal Conv)
    (strptime : string -> string -> outcome datetime)
    (tz_database : string -> option TzInfo)
    (ics_calendar : event_fields TzInfo -> outcome IcsCalendar)
    (ics_str : IcsCalendar -> outcome string) (w : W) :
  (forall calendar_name title descr sd ed st et loc tz p w1 (L : list Cal) w2,
     cal_principal nc w = (Returned p, w1) ->
     principal_calendars nc p w1 = (Returned L, w2) ->
     let run :=
       schedule_event nc strptime tz_database ics_calendar ics_str
         calendar_name title descr sd ed st et loc tz w in
     (calendar_name ∉ cal_name nc <$> L ->
      (exists e, run.1.1 = Raise e)
      /\ (forall c text o, EvAddEvent c text o ∉ run.2)
      /\ (forall times zone c,
            event_times strptime sd ed st et = Returned times ->
            pytz_timezone tz_database tz = Returned zone ->
            ics_calendar (mkEventFields title (localize zone times.1)
                            (localize zone times.2) descr loc)
            = Returned c ->
            run = (Raise (KeyError (KStr calendar_name)), w2,
                   [EvPrincipal (Returned p); EvCalendars (Returned L)])))
     /\ (calendar_name ∈ cal_name nc <$> L ->
         exists cal,
           subscript (dict_by (cal_name nc) L) calendar_name = Returned cal
           /\ cal_name nc cal = calendar_name /\ cal ∈ L
           /\ (forall c' text o, EvAddEvent c' text o ∈ run.2 -> c' = cal)
           /\ (forall times zone c text o w3,
                 event_times strptime sd ed st et = Returned times ->
                 pytz_timezone tz_database tz = Returned zone ->
                 ics_calendar (mkEventFields title (localize zone times.1)
                                 (localize zone times.2) descr loc)
                 = Returned c ->
                 ics_str c = Returned text ->
                 calendar_add_event nc cal text w2 = (o, w3) ->
                 run = (match o with
                        | Returned _ => Ok true
                        | Raised e => Raise e
                        end, w3,
                        [EvPrincipal (Returned p); EvCalendars (Returned L);
                         EvAddEvent cal text o]))))
  /\ (forall conversation_name message (L : list Conv) w1,
        talk_get_user_conversations nc w = (Returned L, w1) ->
        (conversation_name ∉ conv_display_name nc <$> L ->
         send_message_to_conversation nc conversation_name message w
         = (Raise (KeyError (KStr conversation_name)), w1,
            [EvConversations (Returned L)]))
        /\ (conversation_name ∈ conv_display_name nc <$> L ->
            exists c,
              subscript (dict_by (conv_display_name nc) L) conversation_name
              = Returned c
              /\ conv_display_name nc c = conversation_name /\ c ∈ L
              /\ forall o w2,
                   talk_send_message nc message c w1 = (o, w2) ->
                   send_message_to_conversation nc conversation_name message w
                   = (match o with
                      | Returned _ => Ok true
                      | Raised e => Raise e
                      end, w2,
                      [EvConversations (Returned L);
                       EvSendMessage message c o])))
  /\ (forall conversation_name n_messages (L : list Conv) w1,
        talk_get_user_conversations nc w = (Returned L, w1) ->
        (conversation_name ∉ conv_display_name nc <$> L ->
         list_messages_in_conversation nc conversation_name n_messages w
         = (Raise (KeyError (KStr conversation_name)), w1,
            [EvConversations (Returned L)]))
        /\ (conversation_name ∈ conv_display_name nc <$> L ->
            exists c,
              subscript (dict_by (conv_display_name nc) L) conversation_name
              = Returned c
              /\ conv_display_name nc c = conversation_name /\ c ∈ L
              /\ forall o w2,
                   talk_receive_messages nc c false n_messages w1 = (o, w2) ->
                   list_messages_in_conversation nc conversation_name
                     n_messages w
                   = (match o with
                      | Returned messages =>
                          Ok (format_message <$> messages)
                      | Raised e => Raise e
                      end, w2,
                      [EvConversations (Returned L);
                       EvReceiveMessages c false n_messages o]))).
Proof.
  split; [|split].
  - intros name title descr sd ed st et loc tz p w1 L w2 Hp HL. cbv zeta.
    split.
    + intros Hno.
      destruct (schedule_event_local nc strptime tz_database ics_calendar
                  ics_str name title descr sd ed st et loc tz w)
        as [(e & -> & Hnot) | (times & zone & c & Ht & Hz & Hc)].
      * split; [eauto|]. split.
        -- intros c text o Hev. now apply elem_of_nil in Hev.
        -- intros times zone c Ht Hz Hc. now destruct (Hnot times zone c).
      * rewrite (schedule_event_listed nc strptime tz_database ics_calendar
                   ics_str name title descr sd ed st et loc tz w
                   times zone c p w1 L w2 Ht Hz Hc Hp HL).
        rewrite (subscript_missing _ _ _ Hno).
        split; [eauto|]. split; [|done].
        intros c' text o Hev. simpl in Hev. trace_cases Hev.
    + intros (cal & Hcal & Hname & HcalL)%(subscript_present (cal_name nc)).
      exists cal. do 3 (split; [done|]).
      destruct (schedule_event_local nc strptime tz_database ics_calendar
                  ics_str name title descr sd ed st et loc tz w)
        as [(e & -> & Hnot) | (times & zone & c & Ht & Hz & Hc)].
      * split.
        -- intros c' text o Hev. now apply elem_of_nil in Hev.
        -- intros times zone c text o w3 Ht Hz Hc.
           now destruct (Hnot times zone c).
      * rewrite (schedule_event_listed nc strptime tz_database ics_calendar
                   ics_str name title descr sd ed st et loc tz w
                   times zone c p w1 L w2 Ht Hz Hc Hp HL).
        rewrite Hcal.
        destruct (ics_str c) as [text|e] eqn:Hstr.
        -- destruct (calendar_add_event nc cal text w2) as [o w3] eqn:Hadd.
           split.
           ++ intros c' text' o' Hev. simpl in Hev. trace_cases Hev.
              congruence.
           ++ intros times' zone' c' text' o' w3' Ht' Hz' Hc' Hstr' Hadd'.
              assert (times' = times) as -> by congruence.
              assert (zone' = zone) as -> by congruence.
              assert (c' = c) as -> by congruence.
              assert (text' = text) as -> by congruence.
              rewrite Hadd in Hadd'. now injection Hadd' as <- <-.
        -- split.
           ++ intros c' text' o' Hev. simpl in Hev. trace_cases Hev.
           ++ intros times' zone' c' text' o' w3' Ht' Hz' Hc' Hstr' Hadd'.
              assert (times' = times) as -> by congruence.
              assert (zone' = zone) as -> by congruence.
              assert (c' = c) as -> by congruence.
              congruence.
  - intros name message L w1 HL.
    rewrite (send_message_listed nc name message w L w1 HL). split.
    + intros Hno. now rewrite (subscript_missing _ _ _ Hno).
    + intros (c & Hc & Hname & HcL)%(subscript_present (conv_display_name nc)).
      exists c. do 3 (split; [done|]).
      intros o w2 Hsend. now rewrite Hc, Hsend.
  - intros name n L w1 HL.
    rewrite (list_messages_listed nc name n w L w1 HL). split.
    + intros Hno. now rewrite (subscript_missing _ _ _ Hno).
    + intros (c & Hc & Hname & HcL)%(subscript_present (conv_display_name nc)).
      exists c. do 3 (split; [done|]).
      intros o w2 Hrecv. now rewrite Hc, Hrecv.
Qed.

Lemma name_lookup_contract_witness :
  schedule_event Demo.nc Demo.strptime Demo.tz_database Demo.ics_calendar
    Demo.ics_str "Holidays" "Meet" "" "2024-12-01" "2024-12-01"
    None None None (Some "UTC") Demo.quiet
  = (Raise (KeyError (KStr "Holidays")), Demo.quiet,
     [EvPrincipal (Returned tt); EvCalendars (Returned Demo.calendars)])
  /\ send_message_to_conversation Demo.nc "Nobody" "hello" Demo.quiet
     = (Raise (KeyError (KStr "Nobody")), Demo.quiet,
        [EvConversations (Returned Demo.conversations)])
  /\ list_messages_in_conversation Demo.nc "Nobody" 30 Demo.quiet
     = (Raise (KeyError (KStr "Nobody")), Demo.quiet,
        [EvConversations (Returned Demo.conversations)])
  /\ send_message_to_conversation Demo.nc "Team" "hello" Demo.quiet
     = (Ok true, Demo.write "Team" "hello" Demo.quiet,
        [EvConversations (Returned Demo.conversations);
         EvSendMessage "hello" ("Team", 1%nat) (Returned tt)]).
Proof.
  destruct (name_lookup_contract Demo.nc Demo.strptime Demo.tz_database
              Demo.ics_calendar Demo.ics_str Demo.quiet) as (Hs & Hm & Hl).
  split; [|split; [|split]].
  - apply (proj1 (Hs "Holidays" "Meet" "" "2024-12-01" "2024-12-01"
                    None None None (Some "UTC") tt Demo.quiet Demo.calendars
                    Demo.quiet eq_refl eq_refl)
             ltac:(intros Hin; vm_compute in Hin; trace_cases Hin))
      with (times := (mkDatetime (mkDate 2024 12 1) midnight,
                      mkDatetime (mkDate 2024 12 1) midnight))
           (zone := "UTC")
           (c := mkEventFields "Meet"
                   (mkAware (mkDatetime (mkDate 2024 12 1) midnight) "UTC")
                   (mkAware (mkDatetime (mkDate 2024 12 1) midnight) "UTC")
                   "" None);
      reflexivity.
  - apply (proj1 (Hm "Nobody" "hello" Demo.conversations Demo.quiet eq_refl)).
    intros Hin. vm_compute in Hin. trace_cases Hin.
  - apply (proj1 (Hl "Nobody" 30 Demo.conversations Demo.quiet eq_refl)).
    intros Hin. vm_compute in Hin. trace_cases Hin.
  - destruct (proj2 (Hm "Team" "hello" Demo.conversations Demo.quiet eq_refl))
      as (c & Hc & _ & _ & Hrun).
    + left.
    + vm_compute in Hc. injection Hc as <-.
      exact (Hrun (Returned tt) (Demo.write "Team" "hello" Demo.quiet)
               eq_refl).
Defined.

(** Of two calendars of one name, the later one is found. *)
Example later_calendar_wins :
  subscript (dict_by fst Demo.calendars) "Work" = Returned ("Work", 3%nat).
Proof. vm_compute. reflexivity. Qed.




(** A lone time that is no time at all goes unnoticed; both times given,
    they are combined with the dates. *)
Example lone_time_unparsed :
  event_times Demo.strptime "2024-12-01" "2024-12-02" None (Some "teatime")
  = Returned (mkDatetime (mkDate 2024 12 1) midnight,
              mkDatetime (mkDate 2024 12 2) midnight).
Proof. reflexivity. Qed.

Example both_times_combined :
  event_times Demo.strptime "2024-12-01" "2024-12-01"
    (Some "3:00 PM") (Some "4:30 PM")
  = Returned (mkDatetime (mkDate 2024 12 1) (mkTime 15 0 0),
              mkDatetime (mkDate 2024 12 1) (mkTime 16 30 0)).
Proof. reflexivity. Qed.

(** C9. [schedule_event] looks the time zone up on every path that gets
    past the parsing of dates and times. Called with [timezone = None] it
    therefore raises, with nothing called on the server and the server
    left as it was; with valid dates and times the error is that of
    [pytz.timezone(None)]. An event is only ever added after the lookup of
    a known zone. *)
Theorem schedule_event_needs_timezone
    {W Principal Cal Conv TzInfo IcsCalendar : Type}
    (nc : Nextcloud W Principal Cal Conv)
    (strptime : string -> string -> outcome datetime)
    (tz_database : string -> option TzInfo)
    (ics_calendar : event_fields TzInfo -> outcome IcsCalendar)
    (ics_str : IcsCalendar -> outcome string)
    (calendar_name title descr sd ed : string)
    (st et loc : option string) (w : W) :
  (exists e,
     schedule_event nc strptime tz_database ics_calendar ics_str
       calendar_name title descr sd ed st et loc None w
     = (Raise e, w, []))
  /\ (forall times,
        event_times strptime sd ed st et = Returned times ->
        schedule_event nc strptime tz_database ics_calendar ics_str
          calendar_name title descr sd ed st et loc None w
        = (Raise (UnknownTimeZoneError None), w, []))
  /\ (forall tz c text o,
        EvAddEvent c text o
        ∈ (schedule_event nc strptime tz_database ics_calendar ics_str
             calendar_name title descr sd ed st et loc tz w).2 ->
        exists zone info,
          tz = Some zone /\ tz_database zone = Some info).
Proof.
  split; [|split].
  - destruct (event_times strptime sd ed st et) as [times|e] eqn:Ht.
    + exists (UnknownTimeZoneError None).
      now apply schedule_event_bad_zone with (times := times).
    + exists e. now apply schedule_event_bad_times.
  - intros times Ht. now apply schedule_event_bad_zone with (times := times).
  - intros tz c text o.
    destruct tz as [zone|].
    + destruct (tz_database zone) as [info|] eqn:Hz; [eauto|].
      destruct (event_times strptime sd ed st et) as [times|e] eqn:Ht.
      * rewrite (schedule_event_bad_zone nc strptime tz_database ics_calendar
                   ics_str _ _ _ _ _ _ _ _ (Some zone) w times
                   (UnknownTimeZoneError (Some zone)) Ht);
          [|simpl; now rewrite Hz].
        simpl. intros []%elem_of_nil.
      * rewrite (schedule_event_bad_times nc strptime tz_database ics_calendar
                   ics_str _ _ _ _ _ _ _ _ (Some zone) w e Ht).
        simpl. intros []%elem_of_nil.
    + destruct (event_times strptime sd ed st et) as [times|e] eqn:Ht.
      * rewrite (schedule_event_bad_zone nc strptime tz_database ics_calendar
                   ics_str _ _ _ _ _ _ _ _ None w times
                   (UnknownTimeZoneError None) Ht eq_refl).
        simpl. intros []%elem_of_nil.
      * rewrite (schedule_event_bad_times nc strptime tz_database ics_calendar
                   ics_str _ _ _ _ _ _ _ _ None w e Ht).
        simpl. intros []%elem_of_nil.
Qed.

Lemma schedule_event_needs_timezone_witness :
  event_times Demo.strptime "2024-12-01" "2024-12-01"
    (Some "3:00 PM") (Some "4:00 PM")
  = Returned (mkDatetime (mkDate 2024 12 1) (mkTime 15 0 0),
              mkDatetime (mkDate 2024 12 1) (mkTime 16 0 0))
  /\ schedule_event Demo.nc Demo.strptime Demo.tz_database Demo.ics_calendar
       Demo.ics_str "Work" "Meet" "" "2024-12-01" "2024-12-01"
       (Some "3:00 PM") (Some "4:00 PM") None None Demo.quiet
     = (Raise (UnknownTimeZoneError None), Demo.quiet, []).
Proof.
  split; [reflexivity|].
  apply (proj1 (proj2 (schedule_event_needs_timezone Demo.nc Demo.strptime
                         Demo.tz_database Demo.ics_calendar Demo.ics_str
                         "Work" "Meet" "" "2024-12-01" "2024-12-01"
                         (Some "3:00 PM") (Some "4:00 PM") None Demo.quiet))
           (mkDatetime (mkDate 2024 12 1) (mkTime 15 0 0),
            mkDatetime (mkDate 2024 12 1) (mkTime 16 0 0))).
  reflexivity.
Defined.

End CalendarTalkProps.

(** ** The polling tool *)

Module ContextChatProps.
Import ContextChat.

Section Poll.
Context {W Principal Cal Conv : Type}.
Variable nc : Nextcloud W Principal Cal Conv.
Variable parse_task : json -> option Task.

Lemma loop_continues_true task i :
  loop_continues task i = true
  <-> terminal (status task) = false /\ i < 360.
Proof.
  unfold loop_continues, terminal.
  rewrite !andb_true_iff, orb_false_iff, !negb_true_iff, Z.ltb_lt.
  change (60 * 6) with 360. tauto.
Qed.

Lemma loop_continues_false task i :
  loop_continues task i = false
  <-> terminal (status task) = true \/ 360 <= i.
Proof.
  rewrite <- not_true_iff_false, loop_continues_true.
  destruct (terminal (status task)); intuition (try discriminate; try lia).
Qed.

(** One turn of the loop. *)
Lemma poll_loop_stop fuel i task w :
  loop_continues task i = false ->
  poll_loop nc parse_task fuel i task w = (Ok task, w, []).
Proof. intros H. destruct fuel; simpl; now rewrite H. Qed.

Lemma poll_loop_step fuel i task w :
  loop_continues task i = true ->
  poll_loop nc parse_task (S fuel) i task w
  = match ocs nc "GET" (task_path (id task)) None w with
    | (Returned response, w1) =>
        match parse_task response with
        | Some task' =>
            let '(r, w2, tr) :=
              poll_loop nc parse_task fuel (i + 1) task' w1 in
            (r, w2,
             EvSleep 5
             :: EvOcs "GET" (task_path (id task)) None (Returned response)
             :: EvLog DEBUG task' :: tr)
        | None =>
            (Raise ValidationError, w1,
             [EvSleep 5;
              EvOcs "GET" (task_path (id task)) None (Returned response)])
        end
    | (Raised e, w1) =>
        (Raise e, w1,
         [EvSleep 5; EvOcs "GET" (task_path (id task)) None (Raised e)])
    end.
Proof.
  intros H. simpl. rewrite H.
  unfold bind, sleep, log, emit, call, lift, model_validate. simpl.
  destruct (ocs nc "GET" (task_path (id task)) None w) as [[response|e] w1];
    simpl; [|reflexivity].
  destruct (parse_task response) as [task'|]; simpl; [|reflexivity].
  now destruct (poll_loop nc parse_task fuel (i + 1) task' w1) as [[r w2] tr].
Qed.

(** With fuel for the turns that are left, the loop runs as [poll_run]
    says. *)
Lemma poll_loop_run fuel i task w :
  360 - i <= Z.of_nat fuel ->
  let '(r, _, tr) := poll_loop nc parse_task fuel i task w in
  poll_run parse_task i task tr r.
Proof.
  revert i task w. induction fuel as [|fuel IH]; intros i task w Hfuel.
  - rewrite poll_loop_stop; [now constructor; apply loop_continues_false; lia|].
    apply loop_continues_false. lia.
  - destruct (loop_continues task i) eqn:Hc.
    + rewrite poll_loop_step by done.
      destruct (ocs nc "GET" (task_path (id task)) None w)
        as [[response|e] w1]; [|now constructor].
      destruct (parse_task response) as [task'|] eqn:Hp; [|now constructor].
      specialize (IH (i + 1) task' w1).
      destruct (poll_loop nc parse_task fuel (i + 1) task' w1)
        as [[r w2] tr].
      econstructor; [done | done | apply IH; lia].
    + rewrite poll_loop_stop by done. now constructor.
Qed.

(** More fuel than the turns that are left changes nothing. *)
Lemma poll_loop_fuel fuel fuel' i task w :
  360 - i <= Z.of_nat fuel -> 360 - i <= Z.of_nat fuel' ->
  poll_loop nc parse_task fuel i task w
  = poll_loop nc parse_task fuel' i task w.
Proof.
  revert fuel' i task w.
  induction fuel as [|fuel IH]; intros fuel' i task w H H'.
  - rewrite !poll_loop_stop; [done | |]; apply loop_continues_false; lia.
  - destruct (loop_continues task i) eqn:Hc.
    + destruct fuel' as [|fuel'].
      { apply loop_continues_true in Hc. lia. }
      rewrite !poll_loop_step by done.
      destruct (ocs nc "GET" (task_path (id task)) None w)
        as [[response|e] w1]; [|done].
      destruct (parse_task response) as [task'|]; [|done].
      rewrite (IH fuel' (i + 1) task' w1) by lia. done.
    + now rewrite !poll_loop_stop.
Qed.

Lemma poll_run_no_fuel_out i task (tr : list (event Principal Cal Conv)) r :
  poll_run parse_task i task tr r -> r <> OutOfFuel.
Proof. induction 1; congruence. Qed.

(** The whole tool runs as [chat_run] says. *)
Lemma ask_context_chat_fuel_run fuel question w :
  (360 <= fuel)%nat ->
  let '(r, _, tr) := ask_context_chat_fuel nc parse_task fuel question w in
  chat_run parse_task question tr r.
Proof.
  intros Hfuel.
  unfold ask_context_chat_fuel, fetch_task, try_except_raise, bind, call,
    lift, log, emit, model_validate.
  destruct (ocs nc "POST" schedule_path (Some (schedule_body question)) w)
    as [[response|e] w1]; simpl; [|constructor].
  destruct (parse_task response) as [task|] eqn:Hp; simpl;
    [|now constructor].
  pose proof (poll_loop_run fuel 0 task w1 ltac:(lia)) as Hrun.
  destruct (poll_loop nc parse_task fuel 0 task w1) as [[r w2] tr]. simpl.
  pose proof (poll_run_no_fuel_out _ _ _ _ Hrun) as Hr.
  destruct r as [task'|e|]; [| |done]; simpl.
  - rewrite app_nil_r.
    now apply (chat_polled parse_task question response task _ (Ok task')).
  - now apply (chat_polled parse_task question response task _ (Raise e)).
Qed.

Lemma ask_context_chat_run question w :
  let '(r, _, tr) := ask_context_chat nc parse_task question w in
  chat_run parse_task question tr r.
Proof. now apply ask_context_chat_fuel_run. Qed.

(** The tool never runs out of fuel, and any larger budget gives the same
    run. *)
Lemma fuel_irrelevant fuel question w :
  (360 <= fuel)%nat ->
  ask_context_chat_fuel nc parse_task fuel question w
  = ask_context_chat nc parse_task question w
  /\ (ask_context_chat nc parse_task question w).1.1 <> OutOfFuel.
Proof.
  intros Hfuel. split.
  - unfold ask_context_chat, ask_context_chat_fuel, fetch_task,
      try_except_raise, bind, call, lift, log, emit, model_validate.
    destruct (ocs nc "POST" schedule_path (Some (schedule_body question)) w)
      as [[response|e] w1]; simpl; [|done].
    destruct (parse_task response) as [task|]; simpl; [|done].
    now rewrite (poll_loop_fuel fuel 360 0 task w1) by lia.
  - pose proof (ask_context_chat_run question w) as H.
    destruct (ask_context_chat nc parse_task question w) as [[r w'] tr].
    simpl. destruct H as [| |response task tr r Hp Hrun]; try discriminate.
    apply poll_run_no_fuel_out in Hrun.
    destruct r as [task'| |]; simpl; [|discriminate|done].
    now destruct (extract_result task').
Qed.

(** *** The shape of the traces of the loop *)

Lemma terminal_stops task i :
  terminal (status task) = true -> loop_continues task i = false.
Proof. intros H. apply loop_continues_false. now left. Qed.

Lemma poll_run_stopped i task (tr : list (event Principal Cal Conv)) r :
  poll_run parse_task i task tr r ->
  loop_continues task i = false -> tr = [] /\ r = Ok task.
Proof. destruct 1; intros Hc; [done | congruence..]. Qed.

Lemma poll_run_going i task (tr : list (event Principal Cal Conv)) r :
  poll_run parse_task i task tr r ->
  loop_continues task i = true ->
  exists o tr',
    tr = EvSleep 5 :: EvOcs "GET" (task_path (id task)) None o :: tr'.
Proof. destruct 1; intros Hc; [congruence | eauto..]. Qed.

(** At most [360 - i] polls are left when the counter is at [i]. *)
Lemma poll_run_count i task (tr : list (event Principal Cal Conv)) r :
  poll_run parse_task i task tr r ->
  i <= 360 -> i + Z.of_nat (count_polls tr) <= 360.
Proof.
  induction 1 as [i task Hc|i task e Hc|i task response Hc Hp
                  |i task response task' tr r Hc Hp Hrun IH]; intros Hi;
    try apply loop_continues_true in Hc as [_ Hc];
    unfold count_polls in *; simpl in *; lia.
Qed.

(** Every poll comes right after a sleep of 5. *)
Lemma poll_run_sleep_before i task (tr : list (event Principal Cal Conv)) r :
  poll_run parse_task i task tr r ->
  forall k e, tr !! k = Some e -> is_poll e = true ->
    exists k', k = S k' /\ tr !! k' = Some (EvSleep 5).
Proof.
  induction 1 as [i task Hc|i task e Hc|i task response Hc Hp
                  |i task response task' tr r Hc Hp Hrun IH];
    intros k ev Hk Hpoll.
  - done.
  - destruct k as [|[|k]]; simpl in Hk; [| |done]; injection Hk as <-;
      [done | by exists 0%nat].
  - destruct k as [|[|k]]; simpl in Hk; [| |done]; injection Hk as <-;
      [done | by exists 0%nat].
  - destruct k as [|[|[|k]]]; simpl in Hk.
    + injection Hk as <-. done.
    + by exists 0%nat.
    + injection Hk as <-. done.
    + destruct (IH k ev Hk Hpoll) as (k' & -> & Hk').
      by exists (S (S (S k'))).
Qed.

(** Every sleep lasts 5 and is followed by a poll. *)
Lemma poll_run_sleep_is_5 i task (tr : list (event Principal Cal Conv)) r :
  poll_run parse_task i task tr r ->
  forall k secs, tr !! k = Some (EvSleep secs) ->
    secs = 5 /\ exists e, tr !! S k = Some e /\ is_poll e = true.
Proof.
  induction 1 as [i task Hc|i task e Hc|i task response Hc Hp
                  |i task response task' tr r Hc Hp Hrun IH];
    intros k secs Hk.
  - done.
  - destruct k as [|[|k]]; simpl in Hk; try discriminate.
    injection Hk as <-. split; [done | eauto].
  - destruct k as [|[|k]]; simpl in Hk; try discriminate.
    injection Hk as <-. split; [done | eauto].
  - destruct k as [|[|[|k]]]; simpl in Hk; try discriminate.
    + injection Hk as <-. split; [done | eauto].
    + apply (IH k secs Hk).
Qed.

(** After a poll that fetched a terminal status only its log entry
    follows; after one that fetched another status, with polls left, the
    next sleep and the next poll (of the task just fetched) follow. *)
Lemma poll_run_after_fetch i task (tr : list (event Principal Cal Conv)) r :
  poll_run parse_task i task tr r ->
  forall k m p b response task',
    tr !! k = Some (EvOcs m p b (Returned response)) ->
    parse_task response = Some task' ->
    (terminal (status task') = true -> length tr = S (S k))
    /\ (terminal (status task') = false ->
        i + Z.of_nat (count_polls (take (S k) tr)) < 360 ->
        tr !! S (S k) = Some (EvSleep 5)
        /\ exists o,
             tr !! S (S (S k))
             = Some (EvOcs "GET" (task_path (id task')) None o)).
Proof.
  induction 1 as [i task Hc|i task e Hc|i task response Hc Hp
                  |i task response task' tr r Hc Hp Hrun IH];
    intros k m p b resp t' Hk Hparse.
  - done.
  - destruct k as [|[|k]]; simpl in Hk; done.
  - destruct k as [|[|k]]; simpl in Hk; [done| |done].
    injection Hk as <- <- <- <-. congruence.
  - destruct k as [|[|[|k]]]; simpl in Hk; try discriminate.
    + injection Hk as <- <- <- <-.
      assert (t' = task') as -> by congruence.
      split.
      * intros Hterm.
        destruct (poll_run_stopped _ _ _ _ Hrun (terminal_stops _ _ Hterm))
          as [-> _].
        done.
      * intros Hterm Hleft. unfold count_polls in Hleft. simpl in Hleft.
        destruct (poll_run_going _ _ _ _ Hrun) as (o & tr' & ->).
        { apply loop_continues_true. split; [done | lia]. }
        simpl. eauto.
    + destruct (IH k m p b resp t' Hk Hparse) as [Hstop Hgo].
      split.
      * intros Hterm. simpl. now rewrite (Hstop Hterm).
      * intros Hterm Hleft. apply Hgo; [done|].
        unfold count_polls in *. simpl in Hleft. lia.
Qed.

(** The same four facts for the traces of the whole tool. *)
Lemma chat_run_polling question (tr : list (event Principal Cal Conv)) r :
  chat_run parse_task question tr r ->
  (count_polls tr <= 360)%nat
  /\ (forall k e, tr !! k = Some e -> is_poll e = true ->
        exists k', k = S k' /\ tr !! k' = Some (EvSleep 5))
  /\ (forall k secs, tr !! k = Some (EvSleep secs) ->
        secs = 5 /\ exists e, tr !! S k = Some e /\ is_poll e = true)
  /\ (forall k m p b response task,
        tr !! k = Some (EvOcs m p b (Returned response)) ->
        parse_task response = Some task ->
        (terminal (status task) = true ->
         forall k' e, (k < k')%nat -> tr !! k' = Some e ->
                      is_poll e = false)
        /\ (terminal (status task) = false ->
            (count_polls (take (S k) tr) < 360)%nat ->
            tr !! S (S k) = Some (EvSleep 5)
            /\ exists o,
                 tr !! S (S (S k))
                 = Some (EvOcs "GET" (task_path (id task)) None o))).
Proof.
  destruct 1 as [e|response Hp|response task tr r Hp Hrun].
  - split; [unfold count_polls; simpl; lia|].
    split; [|split].
    + intros [|k] ev Hk Hpoll; [|done]. now injection Hk as <-.
    + intros [|k] secs Hk; done.
    + intros [|k] m p b resp t Hk; done.
  - split; [unfold count_polls; simpl; lia|].
    split; [|split].
    + intros [|k] ev Hk Hpoll; [|done]. now injection Hk as <-.
    + intros [|k] secs Hk; done.
    + intros [|k] m p b resp t Hk Hparse; [|done].
      injection Hk as <- <- <- <-. congruence.
  - split; [|split; [|split]].
    + pose proof (poll_run_count _ _ _ _ Hrun ltac:(lia)).
      unfold count_polls in *. simpl. lia.
    + intros [|[|k]] ev Hk Hpoll; simpl in Hk.
      * now injection Hk as <-.
      * now injection Hk as <-.
      * destruct (poll_run_sleep_before _ _ _ _ Hrun k ev Hk Hpoll)
          as (k' & -> & Hk').
        by exists (S (S k')).
    + intros [|[|k]] secs Hk; simpl in Hk; try discriminate.
      apply (poll_run_sleep_is_5 _ _ _ _ Hrun k secs Hk).
    + intros [|[|k]] m p b resp t Hk Hparse; simpl in Hk; try discriminate.
      * injection Hk as <- <- <- <-.
        assert (t = task) as -> by congruence.
        split.
        -- intros Hterm.
           destruct (poll_run_stopped _ _ _ _ Hrun (terminal_stops _ _ Hterm))
             as [-> _].
           intros [|[|k']] ev Hlt Hk'; simpl in Hk'; [lia| |done].
           now injection Hk' as <-.
        -- intros Hterm _.
           destruct (poll_run_going _ _ _ _ Hrun) as (o & tr' & ->).
           { apply loop_continues_true. split; [done | lia]. }
           simpl. eauto.
      * destruct (poll_run_after_fetch _ _ _ _ Hrun k m p b resp t Hk Hparse)
          as [Hstop Hgo].
        split.
        -- intros Hterm k' ev Hlt Hk'. specialize (Hstop Hterm).
           destruct k' as [|[|k']]; [lia..|]. simpl in Hk'.
           destruct (is_poll ev) eqn:Hpoll; [|done].
           destruct (poll_run_sleep_before _ _ _ _ Hrun k' ev Hk' Hpoll)
             as (k'' & -> & Hsleep).
           apply lookup_lt_Some in Hk'.
           assert (k'' = k) as -> by lia.
           congruence.
        -- intros Hterm Hleft. apply Hgo; [done|].
           unfold count_polls in *. simpl in Hleft. lia.
Qed.

End Poll.

Section Outcome.
Context {W Principal Cal Conv : Type}.
Variable nc : Nextcloud W Principal Cal Conv.
Variable parse_task : json -> option Task.

(** When the last request of a loop came back with a task, the loop ended
    with that task, having stopped on a terminal status or on the cap. *)
Lemma poll_run_final i task (tr : list (event Principal Cal Conv)) r :
  poll_run parse_task i task tr r ->
  forall o task',
    fetched_task parse_task o = Some task ->
    match last_response_from (Some o) tr with
    | Some o' => fetched_task parse_task o'
    | None => None
    end = Some task' ->
    r = Ok task'
    /\ (i <= 360 ->
        terminal (status task') = true
        \/ i + Z.of_nat (count_polls tr) = 360).
Proof.
  induction 1 as [i task Hc|i task e Hc|i task response Hc Hp
                  |i task response task' tr r Hc Hp Hrun IH];
    intros o final Ho Hlast; simpl in Hlast.
  - assert (final = task) as -> by congruence.
    split; [done|]. intros Hi.
    apply loop_continues_false in Hc as [Hc | Hc]; [now left | right].
    unfold count_polls. simpl. lia.
  - done.
  - congruence.
  - destruct (IH (Returned response) final Hp Hlast) as [-> Hcause].
    split; [done|]. intros Hi.
    apply loop_continues_true in Hc as [_ Hc].
    destruct Hcause as [? | Hcount]; [lia | now left |].
    right. unfold count_polls in *. simpl. lia.
Qed.

(** The tool is [extract_result] of the final fetched task. *)
Lemma chat_run_final question (tr : list (event Principal Cal Conv)) r task :
  chat_run parse_task question tr r ->
  final_task parse_task tr = Some task ->
  r = of_outcome (extract_result task)
  /\ (terminal (status task) = true \/ count_polls tr = 360%nat).
Proof.
  unfold final_task.
  destruct 1 as [e|response Hp|response task0 tr r Hp Hrun]; simpl.
  - done.
  - congruence.
  - intros Hlast.
    destruct (poll_run_final _ _ _ _ Hrun (Returned response) task Hp Hlast)
      as [-> Hcause].
    split; [done|].
    destruct Hcause as [? | Hcount]; [lia | now left |].
    right. unfold count_polls in *. simpl. lia.
Qed.

Lemma ask_context_chat_final question w task :
  final_task parse_task (ask_context_chat nc parse_task question w).2
  = Some task ->
  (ask_context_chat nc parse_task question w).1.1
  = of_outcome (extract_result task)
  /\ (terminal (status task) = true
      \/ count_polls (ask_context_chat nc parse_task question w).2
         = 360%nat).
Proof.
  pose proof (ask_context_chat_run nc parse_task question w) as H.
  destruct (ask_context_chat nc parse_task question w) as [[r w'] tr].
  simpl. exact (chat_run_final question tr r task H).
Qed.

(** A response that does not parse ends the loop there and then, with a
    [ValidationError]. *)
Lemma poll_run_parse_failure i task (tr : list (event Principal Cal Conv)) r :
  poll_run parse_task i task tr r ->
  forall k m p b response,
    tr !! k = Some (EvOcs m p b (Returned response)) ->
    parse_task response = None ->
    r = Raise ValidationError /\ length tr = S k.
Proof.
  induction 1 as [i task Hc|i task e Hc|i task response Hc Hp
                  |i task response task' tr r Hc Hp Hrun IH];
    intros k m p b resp Hk Hnone.
  - done.
  - destruct k as [|[|k]]; simpl in Hk; done.
  - destruct k as [|[|k]]; simpl in Hk; done.
  - destruct k as [|[|[|k]]]; simpl in Hk; try discriminate.
    + injection Hk as <- <- <- <-. congruence.
    + destruct (IH k m p b resp Hk Hnone) as [-> Hlen].
      split; [done|]. simpl. now rewrite Hlen.
Qed.

(** A poll is the first of the loop, or comes three events after a
    response that parsed into a task of a non-terminal status; either way
    fewer than 360 polls were issued before it, and it asks for the task
    last fetched. *)
Lemma poll_run_poll_cause i task (tr : list (event Principal Cal Conv)) r :
  poll_run parse_task i task tr r ->
  forall k e, tr !! k = Some e -> is_poll e = true ->
    i + Z.of_nat (count_polls (take k tr)) < 360
    /\ ((k = 1%nat /\ terminal (status task) = false
         /\ exists o, e = EvOcs "GET" (task_path (id task)) None o)
        \/ exists k0 m p b response task' o,
             k = S (S (S k0))
             /\ tr !! k0 = Some (EvOcs m p b (Returned response))
             /\ parse_task response = Some task'
             /\ terminal (status task') = false
             /\ e = EvOcs "GET" (task_path (id task')) None o).
Proof.
  induction 1 as [i task Hc|i task e Hc|i task response Hc Hp
                  |i task response task' tr r Hc Hp Hrun IH];
    intros k ev Hk Hpoll.
  - done.
  - apply loop_continues_true in Hc as [Hterm Hi].
    destruct k as [|[|k]]; simpl in Hk; [| |done]; injection Hk as <-;
      [done|].
    split; [unfold count_polls; simpl; lia|]. left. eauto.
  - apply loop_continues_true in Hc as [Hterm Hi].
    destruct k as [|[|k]]; simpl in Hk; [| |done]; injection Hk as <-;
      [done|].
    split; [unfold count_polls; simpl; lia|]. left. eauto.
  - apply loop_continues_true in Hc as [Hterm Hi].
    destruct k as [|[|[|k]]]; simpl in Hk.
    + injection Hk as <-. done.
    + injection Hk as <-.
      split; [unfold count_polls; simpl; lia|]. left. eauto.
    + injection Hk as <-. done.
    + destruct (IH k ev Hk Hpoll) as [Hcount Hcause].
      split; [unfold count_polls in *; simpl; lia|].
      right. destruct Hcause as [(-> & Hterm' & o & ->)
                                |(k0 & m & p & b & resp & t & o & -> & Hk0
                                  & Hparse & Hterm' & ->)].
      * exists 1%nat, "GET", (task_path (id task)), None, response, task', o.
        done.
      * exists (S (S (S k0))), m, p, b, resp, t, o. done.
Qed.

Lemma chat_run_parse_failure question (tr : list (event Principal Cal Conv))
    r :
  chat_run parse_task question tr r ->
  (forall k m p b response,
     tr !! k = Some (EvOcs m p b (Returned response)) ->
     parse_task response = None ->
     r = Raise MalformedResponse /\ length tr = S k)
  /\ (forall k e, tr !! k = Some e -> is_poll e = true ->
        (count_polls (take k tr) < 360)%nat
        /\ exists k0 m p b response task o,
             k = S (S (S k0))
             /\ tr !! k0 = Some (EvOcs m p b (Returned response))
             /\ parse_task response = Some task
             /\ terminal (status task) = false
             /\ e = EvOcs "GET" (task_path (id task)) None o).
Proof.
  destruct 1 as [e|response Hp|response task tr r Hp Hrun].
  - split.
    + intros [|k] m p b resp Hk; done.
    + intros [|k] ev Hk Hpoll; [|done]. now injection Hk as <-.
  - split.
    + intros [|k] m p b resp Hk Hnone; done.
    + intros [|k] ev Hk Hpoll; [|done]. now injection Hk as <-.
  - split.
    + intros [|[|k]] m p b resp Hk Hnone; simpl in Hk; try discriminate.
      * injection Hk as <- <- <- <-. congruence.
      * destruct (poll_run_parse_failure _ _ _ _ Hrun k m p b resp Hk Hnone)
          as [-> Hlen].
        split; [done|]. simpl. now rewrite Hlen.
    + intros [|[|k]] ev Hk Hpoll; simpl in Hk.
      * now injection Hk as <-.
      * now injection Hk as <-.
      * destruct (poll_run_poll_cause _ _ _ _ Hrun k ev Hk Hpoll)
          as [Hcount Hcause].
        split; [unfold count_polls in *; simpl; lia|].
        destruct Hcause as [(-> & Hterm & o & ->)
                           |(k0 & m & p & b & resp & t & o & -> & Hk0
                             & Hparse & Hterm & ->)].
        -- exists 0%nat, "POST", schedule_path,
             (Some (schedule_body question)), response, task, o.
           done.
        -- exists (S (S k0)), m, p, b, resp, t, o. done.
Qed.

End Outcome.


(** C1. In every run of [ask_context_chat], whatever the server answers:
    the tool comes to an end; at most 360 polls are issued; every poll comes right after a sleep of
    5, and every sleep lasts 5 and comes right before a poll; once a
    response (of the submission or of a poll) has been parsed into a task
    whose status is [STATUS_SUCCESSFUL] or [STATUS_FAILED], no poll
    follows; and after a response parsed into a task of any other status,
    as long as fewer than 360 polls have been issued, the next sleep and
    the next poll, of that task, follow. *)
Theorem polling_is_bounded {W Principal Cal Conv : Type}
    (nc : Nextcloud W Principal Cal Conv) (parse_task : json -> option Task)
    (question : string) (w : W) :
  let '(r, _, tr) := ask_context_chat nc parse_task question w in
  r <> OutOfFuel
  /\ (count_polls tr <= 360)%nat
  /\ (forall k e, tr !! k = Some e -> is_poll e = true ->
        exists k', k = S k' /\ tr !! k' = Some (EvSleep 5))
  /\ (forall k secs, tr !! k = Some (EvSleep secs) ->
        secs = 5 /\ exists e, tr !! S k = Some e /\ is_poll e = true)
  /\ (forall k m p b response task,
        tr !! k = Some (EvOcs m p b (Returned response)) ->
        parse_task response = Some task ->
        (terminal (status task) = true ->
         forall k' e, (k < k')%nat -> tr !! k' = Some e ->
                      is_poll e = false)
        /\ (terminal (status task) = false ->
            (count_polls (take (S k) tr) < 360)%nat ->
            tr !! S (S k) = Some (EvSleep 5)
            /\ exists o,
                 tr !! S (S (S k))
                 = Some (EvOcs "GET" (task_path (id task)) None o))).
Proof.
  pose proof (ask_context_chat_run nc parse_task question w) as H.
  pose proof (proj2 (fuel_irrelevant nc parse_task 360 question w
                       (Nat.le_refl _))) as Hfuel.
  destruct (ask_context_chat nc parse_task question w) as [[r w'] tr].
  split; [exact Hfuel|].
  exact (chat_run_polling parse_task question tr r H).
Qed.

Lemma polling_is_bounded_witness :
  count_polls
    (ask_context_chat Demo.nc Demo.parse_task "question" Demo.stuck).2
  = 360%nat
  /\ (count_polls
        (ask_context_chat Demo.nc Demo.parse_task "question" Demo.stuck).2
      <= 360)%nat.
Proof.
  split; [vm_compute; reflexivity|].
  pose proof (polling_is_bounded Demo.nc Demo.parse_task "question"
                Demo.stuck) as H.
  destruct (ask_context_chat Demo.nc Demo.parse_task "question" Demo.stuck)
    as [[r w] tr].
  exact (proj1 (proj2 H)).
Defined.

(** C2. When the final fetched task of a run has the status
    [STATUS_SUCCESSFUL] and its output is a dict with the key ["output"],
    the tool returns the value under that key, as it is. *)
Theorem successful_output_returned {W Principal Cal Conv : Type}
    (nc : Nextcloud W Principal Cal Conv) (parse_task : json -> option Task)
    (question : string) (w : W) (task : Task)
    (d : list (string * json)) (v : json) :
  final_task parse_task (ask_context_chat nc parse_task question w).2
  = Some task ->
  status task = STATUS_SUCCESSFUL ->
  output task = JDict d ->
  dict_lookup "output" d = Some v ->
  (ask_context_chat nc parse_task question w).1.1 = Ok v.
Proof.
  intros Hfinal Hstatus Hout Hv.
  destruct (ask_context_chat_final nc parse_task question w task Hfinal)
    as [-> _].
  unfold extract_result. rewrite Hstatus, Hout. simpl. now rewrite Hv.
Qed.

Lemma successful_output_returned_witness :
  final_task Demo.parse_task
    (ask_context_chat Demo.nc Demo.parse_task "question" Demo.answered).2
  = Some (mkTask 7 "STATUS_SUCCESSFUL" (JDict [("output", Demo.answer_42)]))
  /\ (ask_context_chat Demo.nc Demo.parse_task "question" Demo.answered).1.1
     = Ok Demo.answer_42.
Proof.
  split; [vm_compute; reflexivity|].
  apply (successful_output_returned Demo.nc Demo.parse_task "question"
           Demo.answered
           (mkTask 7 "STATUS_SUCCESSFUL" (JDict [("output", Demo.answer_42)]))
           [("output", Demo.answer_42)] Demo.answer_42);
    vm_compute; reflexivity.
Defined.

(** C3. When the final fetched task of a run has a status other than
    [STATUS_SUCCESSFUL], the tool raises [TaskFailed]. The polling has then
    ended in one of two ways, on the status [STATUS_FAILED] or on the cap of
    360 polls with a status that is not terminal, and the error raised is
    the same in both. *)
Theorem unsuccessful_task_fails {W Principal Cal Conv : Type}
    (nc : Nextcloud W Principal Cal Conv) (parse_task : json -> option Task)
    (question : string) (w : W) (task : Task) :
  final_task parse_task (ask_context_chat nc parse_task question w).2
  = Some task ->
  status task <> STATUS_SUCCESSFUL ->
  (ask_context_chat nc parse_task question w).1.1 = Raise TaskFailed
  /\ (status task = STATUS_FAILED
      \/ (terminal (status task) = false
          /\ count_polls (ask_context_chat nc parse_task question w).2
             = 360%nat)).
Proof.
  intros Hfinal Hstatus.
  destruct (ask_context_chat_final nc parse_task question w task Hfinal)
    as [-> Hcause].
  apply String.eqb_neq in Hstatus.
  split; [unfold extract_result; now rewrite Hstatus|].
  unfold terminal in *. rewrite Hstatus in *. simpl in *.
  destruct (String.eqb (status task) STATUS_FAILED) eqn:Hf.
  - left. now apply String.eqb_eq.
  - right. destruct Hcause; [discriminate | done].
Qed.

Lemma unsuccessful_task_fails_witness :
  (final_task Demo.parse_task
     (ask_context_chat Demo.nc Demo.parse_task "question" Demo.failing).2
   = Some (mkTask 7 "STATUS_FAILED" JNull)
   /\ (ask_context_chat Demo.nc Demo.parse_task "question" Demo.failing).1.1
      = Raise TaskFailed)
  /\ (final_task Demo.parse_task
        (ask_context_chat Demo.nc Demo.parse_task "question" Demo.stuck).2
      = Some (mkTask 1 "STATUS_SUCCEEDED_TYPO" JNull)
      /\ (ask_context_chat Demo.nc Demo.parse_task "question" Demo.stuck).1.1
         = Raise TaskFailed).
Proof.
  split; (split; [vm_compute; reflexivity|]).
  - apply (unsuccessful_task_fails Demo.nc Demo.parse_task "question"
             Demo.failing (mkTask 7 "STATUS_FAILED" JNull));
      [vm_compute; reflexivity | discriminate].
  - apply (unsuccessful_task_fails Demo.nc Demo.parse_task "question"
             Demo.stuck (mkTask 1 "STATUS_SUCCEEDED_TYPO" JNull));
      [vm_compute; reflexivity | discriminate].
Defined.

(** C4. When the final fetched task of a run has the status
    [STATUS_SUCCESSFUL] and its output is [None], or is no dict, or is a
    dict without the key ["output"], the tool raises [MalformedOutput]. *)
Theorem successful_task_without_output {W Principal Cal Conv : Type}
    (nc : Nextcloud W Principal Cal Conv) (parse_task : json -> option Task)
    (question : string) (w : W) (task : Task) :
  final_task parse_task (ask_context_chat nc parse_task question w).2
  = Some task ->
  status task = STATUS_SUCCESSFUL ->
  output task = JNull
  \/ isinstance_dict (output task) = false
  \/ (exists d, output task = JDict d /\ dict_lookup "output" d = None) ->
  (ask_context_chat nc parse_task question w).1.1 = Raise MalformedOutput.
Proof.
  intros Hfinal Hstatus Hout.
  destruct (ask_context_chat_final nc parse_task question w task Hfinal)
    as [-> _].
  unfold extract_result. rewrite Hstatus. simpl.
  destruct Hout as [-> | [-> | (d & -> & Hd)]]; [done..|].
  simpl. now rewrite Hd.
Qed.

Lemma successful_task_without_output_witness :
  final_task Demo.parse_task
    (ask_context_chat Demo.nc Demo.parse_task "question" Demo.hollow).2
  = Some (mkTask 7 "STATUS_SUCCESSFUL" (JDict [("result", Demo.answer_42)]))
  /\ (ask_context_chat Demo.nc Demo.parse_task "question" Demo.hollow).1.1
     = Raise MalformedOutput.
Proof.
  split; [vm_compute; reflexivity|].
  apply (successful_task_without_output Demo.nc Demo.parse_task "question"
           Demo.hollow
           (mkTask 7 "STATUS_SUCCESSFUL" (JDict [("result", Demo.answer_42)])));
    [vm_compute; reflexivity | reflexivity |].
  right. right. exists [("result", Demo.answer_42)]. split; reflexivity.
Defined.

(** C5. Whenever a response, of the submission or of a poll, does not
    parse, the tool raises [MalformedResponse] and that request is the last
    thing it did: nothing is tried again. A poll is only ever issued three
    events after a response that did parse, into a task of a non-terminal
    status, and with fewer than 360 polls issued before it. *)
Theorem parse_failure_aborts {W Principal Cal Conv : Type}
    (nc : Nextcloud W Principal Cal Conv) (parse_task : json -> option Task)
    (question : string) (w : W) :
  let '(r, _, tr) := ask_context_chat nc parse_task question w in
  (forall k m p b response,
     tr !! k = Some (EvOcs m p b (Returned response)) ->
     parse_task response = None ->
     r = Raise MalformedResponse /\ length tr = S k)
  /\ (forall k e, tr !! k = Some e -> is_poll e = true ->
        (count_polls (take k tr) < 360)%nat
        /\ exists k0 m p b response task o,
             k = S (S (S k0))
             /\ tr !! k0 = Some (EvOcs m p b (Returned response))
             /\ parse_task response = Some task
             /\ terminal (status task) = false
             /\ e = EvOcs "GET" (task_path (id task)) None o).
Proof.
  pose proof (ask_context_chat_run nc parse_task question w) as H.
  destruct (ask_context_chat nc parse_task question w) as [[r w'] tr].
  exact (chat_run_parse_failure parse_task question tr r H).
Qed.

Lemma parse_failure_aborts_witness :
  Demo.parse_task (JDict [("error", JStr "gone")]) = None
  /\ (ask_context_chat Demo.nc Demo.parse_task "question" Demo.garbled).1.1
     = Raise MalformedResponse
  /\ count_polls
       (ask_context_chat Demo.nc Demo.parse_task "question" Demo.garbled).2
     = 2%nat.
Proof.
  split; [reflexivity|].
  pose proof (parse_failure_aborts Demo.nc Demo.parse_task "question"
                Demo.garbled) as H.
  destruct (ask_context_chat Demo.nc Demo.parse_task "question" Demo.garbled)
    as [[r w] tr] eqn:E.
  vm_compute in E. injection E as <- <- <-.
  destruct H as [H _].
  destruct (H 6%nat "GET" "/ocs/v1.php/taskprocessing/task/7" None
              (JDict [("error", JStr "gone")]) eq_refl eq_refl) as [Hr _].
  split; [exact Hr | reflexivity].
Defined.

Section Scenario.
Context {W Principal Cal Conv : Type}.
Variable nc : Nextcloud W Principal Cal Conv.
Variable parse_task : json -> option Task.

(** The tool, once the submission has come back with a task: the loop, then
    the handler and the reading of the result. *)
Lemma ask_context_chat_fuel_polls fuel question w response w1 task :
  ocs nc "POST" schedule_path (Some (schedule_body question)) w
  = (Returned response, w1) ->
  parse_task response = Some task ->
  ask_context_chat_fuel nc parse_task fuel question w
  = let '(r, w2, tr) := poll_loop nc parse_task fuel 0 task w1 in
    (finish r, w2,
     EvOcs "POST" schedule_path (Some (schedule_body question))
       (Returned response)
     :: EvLog DEBUG task :: tr).
Proof.
  intros Hpost Hp.
  unfold ask_context_chat_fuel, fetch_task, try_except_raise, bind, call,
    lift, log, emit, model_validate.
  rewrite Hpost. simpl. rewrite Hp. simpl.
  destruct (poll_loop nc parse_task fuel 0 task w1) as [[[task'|e|] w2] tr];
    simpl; [|done..].
  rewrite app_nil_r. now destruct (extract_result task').
Qed.

(** A turn of the loop whose poll comes back with a task. *)
Lemma poll_loop_turn fuel i task w response w1 task' :
  terminal (status task) = false -> i < 360 ->
  ocs nc "GET" (task_path (id task)) None w = (Returned response, w1) ->
  parse_task response = Some task' ->
  poll_loop nc parse_task (S fuel) i task w
  = let '(r, w2, tr) := poll_loop nc parse_task fuel (i + 1) task' w1 in
    (r, w2,
     EvSleep 5
     :: EvOcs "GET" (task_path (id task)) None (Returned response)
     :: EvLog DEBUG task' :: tr).
Proof.
  intros Hterm Hi Hget Hp.
  rewrite poll_loop_step by (apply loop_continues_true; done).
  now rewrite Hget, Hp.
Qed.

End Scenario.

(** C6. When the server answers the submission with a task that is not
    finished and then the polls, in this order, with tasks of the statuses
    [PENDING], [PENDING] and [STATUS_SUCCESSFUL], the last with the output
    [{"output": {"answer": "42"}}], the tool makes exactly 3 polls, each
    after a sleep of 5, and returns [{"answer": "42"}]. *)
Theorem pending_pending_successful {W Principal Cal Conv : Type}
    (nc : Nextcloud W Principal Cal Conv) (parse_task : json -> option Task)
    (question : string) (w w1 w2 w3 w4 : W)
    (r0 r1 r2 r3 : json) (t0 t1 t2 t3 : Task) :
  ocs nc "POST" schedule_path (Some (schedule_body question)) w
  = (Returned r0, w1) ->
  parse_task r0 = Some t0 ->
  terminal (status t0) = false ->
  ocs nc "GET" (task_path (id t0)) None w1 = (Returned r1, w2) ->
  parse_task r1 = Some t1 ->
  status t1 = "PENDING" ->
  ocs nc "GET" (task_path (id t1)) None w2 = (Returned r2, w3) ->
  parse_task r2 = Some t2 ->
  status t2 = "PENDING" ->
  ocs nc "GET" (task_path (id t2)) None w3 = (Returned r3, w4) ->
  parse_task r3 = Some t3 ->
  status t3 = STATUS_SUCCESSFUL ->
  output t3 = JDict [("output", JDict [("answer", JStr "42")])] ->
  ask_context_chat nc parse_task question w
  = (Ok (JDict [("answer", JStr "42")]), w4,
     [EvOcs "POST" schedule_path (Some (schedule_body question))
        (Returned r0);
      EvLog DEBUG t0;
      EvSleep 5;
      EvOcs "GET" (task_path (id t0)) None (Returned r1);
      EvLog DEBUG t1;
      EvSleep 5;
      EvOcs "GET" (task_path (id t1)) None (Returned r2);
      EvLog DEBUG t2;
      EvSleep 5;
      EvOcs "GET" (task_path (id t2)) None (Returned r3);
      EvLog DEBUG t3])
  /\ count_polls (ask_context_chat nc parse_task question w).2 = 3%nat.
Proof.
  intros Hpost Hp0 Hs0 Hget1 Hp1 Hs1 Hget2 Hp2 Hs2 Hget3 Hp3 Hs3 Hout.
  assert (terminal (status t1) = false) as Hn1 by now rewrite Hs1.
  assert (terminal (status t2) = false) as Hn2 by now rewrite Hs2.
  assert (terminal (status t3) = true) as Hn3 by now rewrite Hs3.
  assert (ask_context_chat nc parse_task question w
          = (Ok (JDict [("answer", JStr "42")]), w4,
             [EvOcs "POST" schedule_path (Some (schedule_body question))
                (Returned r0);
              EvLog DEBUG t0;
              EvSleep 5;
              EvOcs "GET" (task_path (id t0)) None (Returned r1);
              EvLog DEBUG t1;
              EvSleep 5;
              EvOcs "GET" (task_path (id t1)) None (Returned r2);
              EvLog DEBUG t2;
              EvSleep 5;
              EvOcs "GET" (task_path (id t2)) None (Returned r3);
              EvLog DEBUG t3])) as Hrun.
  { unfold ask_context_chat.
    rewrite (ask_context_chat_fuel_polls nc parse_task 360 question w r0 w1 t0
               Hpost Hp0).
    rewrite (poll_loop_turn nc parse_task 359 0 t0 w1 r1 w2 t1 Hs0
               ltac:(lia) Hget1 Hp1).
    rewrite (poll_loop_turn nc parse_task 358 (0 + 1) t1 w2 r2 w3 t2 Hn1
               ltac:(lia) Hget2 Hp2).
    rewrite (poll_loop_turn nc parse_task 357 (0 + 1 + 1) t2 w3 r3 w4 t3 Hn2
               ltac:(lia) Hget3 Hp3).
    rewrite (poll_loop_stop nc parse_task 357 (0 + 1 + 1 + 1) t3 w4
               (terminal_stops _ _ Hn3)).
    cbv beta iota. unfold finish, extract_result.
    rewrite Hs3, Hout. reflexivity. }
  split; [exact Hrun|]. rewrite Hrun. reflexivity.
Qed.

Lemma pending_pending_successful_witness :
  ask_context_chat Demo.nc Demo.parse_task "question" Demo.answered
  = (Ok (JDict [("answer", JStr "42")]),
     Demo.mkWorld [] (Raised (RemoteError "no route")) [],
     [EvOcs "POST" schedule_path (Some (schedule_body "question"))
        (Returned (Demo.task_response 7 "STATUS_SCHEDULED"));
      EvLog DEBUG (mkTask 7 "STATUS_SCHEDULED" JNull);
      EvSleep 5;
      EvOcs "GET" (task_path 7) None
        (Returned (Demo.task_response 7 "PENDING"));
      EvLog DEBUG (mkTask 7 "PENDING" JNull);
      EvSleep 5;
      EvOcs "GET" (task_path 7) None
        (Returned (Demo.task_response 7 "PENDING"));
      EvLog DEBUG (mkTask 7 "PENDING" JNull);
      EvSleep 5;
      EvOcs "GET" (task_path 7) None
        (Returned (Demo.task_response_with 7 "STATUS_SUCCESSFUL"
                     (JDict [("output", Demo.answer_42)])));
      EvLog DEBUG
        (mkTask 7 "STATUS_SUCCESSFUL" (JDict [("output", Demo.answer_42)]))])
  /\ count_polls
       (ask_context_chat Demo.nc Demo.parse_task "question" Demo.answered).2
     = 3%nat.
Proof.
  apply (pending_pending_successful Demo.nc Demo.parse_task "question"
           Demo.answered
           (Demo.mkWorld
              [Returned (Demo.task_response 7 "PENDING");
               Returned (Demo.task_response 7 "PENDING");
               Returned (Demo.task_response_with 7 "STATUS_SUCCESSFUL"
                           (JDict [("output", Demo.answer_42)]))]
              (Raised (RemoteError "no route")) [])
           (Demo.mkWorld
              [Returned (Demo.task_response 7 "PENDING");
               Returned (Demo.task_response_with 7 "STATUS_SUCCESSFUL"
                           (JDict [("output", Demo.answer_42)]))]
              (Raised (RemoteError "no route")) [])
           (Demo.mkWorld
              [Returned (Demo.task_response_with 7 "STATUS_SUCCESSFUL"
                           (JDict [("output", Demo.answer_42)]))]
              (Raised (RemoteError "no route")) [])
           (Demo.mkWorld [] (Raised (RemoteError "no route")) [])
           (Demo.task_response 7 "STATUS_SCHEDULED")
           (Demo.task_response 7 "PENDING")
           (Demo.task_response 7 "PENDING")
           (Demo.task_response_with 7 "STATUS_SUCCESSFUL"
              (JDict [("output", Demo.answer_42)]))
           (mkTask 7 "STATUS_SCHEDULED" JNull)
           (mkTask 7 "PENDING" JNull)
           (mkTask 7 "PENDING" JNull)
           (mkTask 7 "STATUS_SUCCESSFUL" (JDict [("output", Demo.answer_42)])));
    reflexivity.
Defined.

(** The status that the submission came back with is not a poll: were the
    first [PENDING] the answer to the submission, two polls would be
    made. *)
Example submission_is_no_poll :
  let '(r, _, tr) :=
    ask_context_chat Demo.nc Demo.parse_task "question"
      (Demo.mkWorld
         [Returned (Demo.task_response 7 "PENDING");
          Returned (Demo.task_response 7 "PENDING");
          Returned (Demo.task_response_with 7 "STATUS_SUCCESSFUL"
                      (JDict [("output", Demo.answer_42)]))]
         (Raised (RemoteError "no route")) []) in
  r = Ok Demo.answer_42 /\ count_polls tr = 2%nat.
Proof. vm_compute. split; reflexivity. Qed.

(** The scenario of the spec in which the status never becomes terminal:
    360 polls, then [TaskFailed]. *)
Example stuck_task_runs_to_the_cap :
  let '(r, _, tr) :=
    ask_context_chat Demo.nc Demo.parse_task "question" Demo.stuck in
  r = Raise TaskFailed /\ count_polls tr = 360%nat.
Proof. vm_compute. split; reflexivity. Qed.

(** The one in which the task fails at the second poll: two polls. *)
Example failed_at_second_poll :
  let '(r, _, tr) :=
    ask_context_chat Demo.nc Demo.parse_task "question" Demo.failing in
  r = Raise TaskFailed /\ count_polls tr = 2%nat.
Proof. vm_compute. split; reflexivity. Qed.

End ContextChatProps.

(** ** The geocoding tool *)

Module GeocodingProps.
Import Weather Geocoding.

Lemma run_geocoding {H}
    (httpx : string -> list (string * string) -> H -> outcome json * H)
    address h j h' :
  httpx search_url (search_params address) h = (Returned j, h') ->
  get_coordinates_for_address httpx address h
  = (coordinates_of address j, h',
     [EvHttpGet search_url (search_params address) (Returned j)]).
Proof.
  intros E. unfold get_coordinates_for_address. now rewrite E.
Qed.

(** On a list without the string ["error"] among its elements, the first
    element decides. *)
Lemma coordinates_of_list address x rest :
  existsb (is_str "error") (x :: rest) = false ->
  coordinates_of address (JList (x :: rest))
  = of_pair (lat <~ getitem x "lat" ;;
             lon <~ getitem x "lon" ;;
             Returned (lat, lon))%py.
Proof.
  intros Hno. unfold coordinates_of.
  change (contains "error" (JList (x :: rest)))
    with (Returned (A := bool) (existsb (is_str "error") (x :: rest))).
  rewrite Hno. reflexivity.
Qed.

Lemma coordinates_of_Coordinates address j lat lon :
  coordinates_of address j = Coordinates lat lon
  <-> exists e rest,
        j = JList (JDict e :: rest)
        /\ existsb (is_str "error") rest = false
        /\ dict_lookup "lat" e = Some lat
        /\ dict_lookup "lon" e = Some lon.
Proof.
  split.
  - destruct j as [| | | |s|l|d]; try discriminate.
    + unfold coordinates_of. simpl contains. cbv iota beta.
      destruct (str_contains "error" s); [discriminate|].
      destruct s; [discriminate|]. simpl. discriminate.
    + destruct l as [|x rest]; [discriminate|].
      destruct (existsb (is_str "error") (x :: rest)) eqn:Hno.
      { unfold coordinates_of.
        change (contains "error" (JList (x :: rest)))
          with (Returned (A := bool) (existsb (is_str "error") (x :: rest))).
        rewrite Hno. discriminate. }
      rewrite (coordinates_of_list _ _ _ Hno).
      destruct x as [| | | | | |e]; try discriminate.
      simpl. destruct (dict_lookup "lat" e) as [lat'|] eqn:Hlat;
        [|discriminate].
      destruct (dict_lookup "lon" e) as [lon'|] eqn:Hlon; [|discriminate].
      simpl. intros [= <- <-]. exists e, rest. simpl in Hno. auto.
    + unfold coordinates_of. simpl contains. cbv iota beta.
      destruct (bool_decide (is_Some (dict_lookup "error" d))).
      * simpl. destruct (dict_lookup "error" d); discriminate.
      * simpl len. cbv iota beta.
        destruct (Z.of_nat (length (remove_dups (map fst d))) =? 0);
          discriminate.
  - intros (e & rest & -> & Hno & Hlat & Hlon).
    rewrite coordinates_of_list by done.
    simpl. now rewrite Hlat, Hlon.
Qed.

(** X1. When the geocoding service answers with a dict that has the key
    ["error"], the tool raises [Exception] with the value of that key,
    whatever else the answer holds. *)
Theorem geocoding_error_field {H}
    (httpx : string -> list (string * string) -> H -> outcome json * H)
    (address : string) (h h' : H) (d : list (string * json)) (arg : json) :
  httpx search_url (search_params address) h = (Returned (JDict d), h') ->
  dict_lookup "error" d = Some arg ->
  (get_coordinates_for_address httpx address h).1.1
  = Fails (ExceptionWith arg).
Proof.
  intros Hhttp Herr. rewrite (run_geocoding _ _ _ _ _ Hhttp). simpl.
  unfold coordinates_of. simpl. now rewrite Herr.
Qed.

Lemma geocoding_error_field_witness :
  (get_coordinates_for_address
     (fixed_service
        (JDict [("error", JStr "Unable to geocode");
                ("lat", JStr "1"); ("lon", JStr "2")]))
     "nowhere" tt).1.1
  = Fails (ExceptionWith (JStr "Unable to geocode")).
Proof.
  apply (geocoding_error_field
           (fixed_service
              (JDict [("error", JStr "Unable to geocode");
                      ("lat", JStr "1"); ("lon", JStr "2")]))
           "nowhere" tt tt
           [("error", JStr "Unable to geocode");
            ("lat", JStr "1"); ("lon", JStr "2")]
           (JStr "Unable to geocode"));
    reflexivity.
Defined.

(** X2. When the service answers with an empty list (or an empty dict or
    string), the tool raises [Exception] with the message
    [No results for address] followed by the address asked for. *)
Theorem geocoding_no_results {H}
    (httpx : string -> list (string * string) -> H -> outcome json * H)
    (address : string) (h h' : H) (j : json) :
  httpx search_url (search_params address) h = (Returned j, h') ->
  j = JList [] \/ j = JDict [] \/ j = JStr "" ->
  (get_coordinates_for_address httpx address h).1.1
  = Fails (ExceptionWith (JStr ("No results for address " ++ address))).
Proof.
  intros Hhttp Hj. rewrite (run_geocoding _ _ _ _ _ Hhttp). simpl.
  now destruct Hj as [-> | [-> | ->]].
Qed.

Lemma geocoding_no_results_witness :
  (get_coordinates_for_address (fixed_service (JList [])) "Atlantis" tt).1.1
  = Fails (ExceptionWith (JStr "No results for address Atlantis")).
Proof.
  apply (geocoding_no_results (fixed_service (JList [])) "Atlantis" tt tt
           (JList [])); [reflexivity | now left].
Defined.

(** X3. The tool returns a pair exactly when the service answered with a
    list whose first element is a dict with the keys ["lat"] and ["lon"]
    (and which does not hold the bare string ["error"]); the pair is made of
    the values under these two keys of the first element, whatever
    follows it. *)
Theorem geocoding_first_result {H}
    (httpx : string -> list (string * string) -> H -> outcome json * H)
    (address : string) (h h' : H) (j lat lon : json) :
  httpx search_url (search_params address) h = (Returned j, h') ->
  ((get_coordinates_for_address httpx address h).1.1 = Coordinates lat lon
   <-> exists e rest,
         j = JList (JDict e :: rest)
         /\ existsb (is_str "error") rest = false
         /\ dict_lookup "lat" e = Some lat
         /\ dict_lookup "lon" e = Some lon).
Proof.
  intros Hhttp. rewrite (run_geocoding _ _ _ _ _ Hhttp). simpl.
  apply coordinates_of_Coordinates.
Qed.

Lemma geocoding_first_result_witness :
  (get_coordinates_for_address
     (fixed_service (JList [place "52.52" "13.40"; place "48.85" "2.35"]))
     "Berlin" tt).1.1
  = Coordinates (JStr "52.52") (JStr "13.40").
Proof.
  apply (geocoding_first_result
           (fixed_service
              (JList [place "52.52" "13.40"; place "48.85" "2.35"]))
           "Berlin" tt tt
           (JList [place "52.52" "13.40"; place "48.85" "2.35"])
           (JStr "52.52") (JStr "13.40") eq_refl).
  exists [("place_id", JInt 1); ("lat", JStr "52.52"); ("lon", JStr "13.40")],
    [place "48.85" "2.35"].
  repeat split; reflexivity.
Defined.

End GeocodingProps.

(** ** More on the weather tool *)

Module WeatherMore.
Import Weather.

(** X4. Of a forecast that passes the guard, only the first entry of the
    timeseries counts: the tool gives what it gives on the document that
    holds this one entry and nothing else. *)
Theorem weather_first_entry_only {W}
    (httpx : string -> list (string * string) -> W -> outcome json * W)
    (lat lon : string) (w w' : W) (j props entry : json) (rest : list json) :
  httpx weather_url [("lat", lat); ("lon", lon)] w = (Returned j, w') ->
  getitem j "properties" = Returned props ->
  getitem props "timeseries" = Returned (JList (entry :: rest)) ->
  (get_current_weather_for_coordinates httpx lat lon w).1.1
  = (get_current_weather_for_coordinates
       (fixed_service
          (JDict [("properties", JDict [("timeseries", JList [entry])])]))
       lat lon tt).1.1.
Proof.
  intros Hhttp Hg Hts.
  rewrite (WeatherProps.run_weather _ _ _ _ _ _ Hhttp).
  rewrite (WeatherProps.run_weather
             (fixed_service
                (JDict [("properties", JDict [("timeseries", JList [entry])])]))
             lat lon tt _ tt eq_refl).
  simpl. f_equal.
  rewrite (WeatherProps.past_guard _ _ _ _ Hg Hts).
  now rewrite (WeatherProps.past_guard
                 (JDict [("properties", JDict [("timeseries", JList [entry])])])
                 (JDict [("timeseries", JList [entry])]) entry []
                 eq_refl eq_refl).
Qed.

Lemma weather_first_entry_only_witness :
  (get_current_weather_for_coordinates
     (fixed_service
        (JDict [("type", JStr "Feature");
                ("properties",
                 JDict [("meta", JNull);
                        ("timeseries",
                         JList [JDict [("data",
                                        JDict [("instant",
                                                JDict [("details",
                                                        sample_details)])])];
                                JStr "later"; JNull])])]))
     "59.91" "10.75" tt).1.1
  = Ok sample_details.
Proof.
  rewrite (weather_first_entry_only
             (fixed_service
                (JDict [("type", JStr "Feature");
                        ("properties",
                         JDict [("meta", JNull);
                                ("timeseries",
                                 JList
                                   [JDict
                                      [("data",
                                        JDict [("instant",
                                                JDict [("details",
                                                        sample_details)])])];
                                    JStr "later"; JNull])])]))
             "59.91" "10.75" tt tt _ _ _ _ eq_refl eq_refl eq_refl).
  reflexivity.
Defined.

End WeatherMore.

(** ** More on the polling tool *)

Module ContextChatMore.
Import ContextChat Observe ContextChatProps.

Section Runs.
Context {W Principal Cal Conv : Type}.
Variable nc : Nextcloud W Principal Cal Conv.
Variable parse_task : json -> option Task.

(** A poll that raises ends the loop with what it raised. *)
Lemma poll_run_raised_event i task (tr : list (event Principal Cal Conv)) r :
  poll_run parse_task i task tr r ->
  forall k m p b e,
    tr !! k = Some (EvOcs m p b (Raised e)) ->
    r = Raise e /\ length tr = S k.
Proof.
  induction 1 as [i task Hc|i task e Hc|i task response Hc Hp
                  |i task response task' tr r Hc Hp Hrun IH];
    intros k m p b x Hk.
  - done.
  - destruct k as [|[|k]]; simpl in Hk; try discriminate.
    now injection Hk as <- <- <- <-.
  - destruct k as [|[|k]]; simpl in Hk; discriminate.
  - destruct k as [|[|[|k]]]; simpl in Hk; try discriminate.
    destruct (IH k m p b x Hk) as [-> Hlen].
    split; [done|]. simpl. now rewrite Hlen.
Qed.

(** The loop only makes [GET] requests without a body. *)
Lemma poll_run_only_get i task (tr : list (event Principal Cal Conv)) r :
  poll_run parse_task i task tr r ->
  forall m p b o, EvOcs m p b o ∈ tr -> m = "GET" /\ b = None.
Proof.
  induction 1 as [i task Hc|i task e Hc|i task response Hc Hp
                  |i task response task' tr r Hc Hp Hrun IH];
    intros m p b o Hin.
  - now apply elem_of_nil in Hin.
  - CalendarTalkProps.trace_cases Hin. now injection Hin as -> _ -> _.
  - CalendarTalkProps.trace_cases Hin. now injection Hin as -> _ -> _.
  - apply elem_of_cons in Hin as [Hin | Hin]; [discriminate|].
    apply elem_of_cons in Hin as [Hin | Hin];
      [now injection Hin as -> _ -> _|].
    apply elem_of_cons in Hin as [Hin | Hin]; [discriminate|].
    now apply (IH m p b o).
Qed.

(** Each turn of the loop sleeps 5 and polls once. *)
Lemma poll_run_total_sleep i task (tr : list (event Principal Cal Conv)) r :
  poll_run parse_task i task tr r ->
  total_sleep tr = 5 * Z.of_nat (count_polls tr).
Proof.
  induction 1 as [i task Hc|i task e Hc|i task response Hc Hp
                  |i task response task' tr r Hc Hp Hrun IH];
    unfold count_polls in *; simpl; lia.
Qed.

(** The loop logs the tasks it fetches, and nothing else. *)
Lemma poll_run_logged i task (tr : list (event Principal Cal Conv)) r :
  poll_run parse_task i task tr r ->
  logged tr
  = (fun t => (DEBUG, t)) <$> omap (fetched_task parse_task) (ocs_outcomes tr).
Proof.
  induction 1 as [i task Hc|i task e Hc|i task response Hc Hp
                  |i task response task' tr r Hc Hp Hrun IH]; simpl.
  - done.
  - done.
  - now rewrite Hp.
  - rewrite Hp. simpl. now rewrite IH.
Qed.

(** A loop that ends well ends with the task of its last request. *)
Lemma poll_run_Ok_final i task (tr : list (event Principal Cal Conv)) task' :
  poll_run parse_task i task tr (Ok task') ->
  forall o,
    fetched_task parse_task o = Some task ->
    match last_response_from (Some o) tr with
    | Some o' => fetched_task parse_task o'
    | None => None
    end = Some task'.
Proof.
  remember (Ok task') as r eqn:Hr.
  induction 1 as [i task Hc|i task e Hc|i task response Hc Hp
                  |i task response task0 tr r Hc Hp Hrun IH];
    intros o Ho; simpl; try discriminate.
  - now injection Hr as <-.
  - now apply IH.
Qed.

End Runs.

(** X5. An OCS request that raises is the last thing a run does. What the
    submission raises reaches the caller as it is, a [ValidationError]
    included; what a poll raises reaches the caller as it is unless it is a
    [ValidationError], which the handler turns into
    [MalformedResponse]. *)
Theorem ocs_failure_ends_the_run {W Principal Cal Conv : Type}
    (nc : Nextcloud W Principal Cal Conv) (parse_task : json -> option Task)
    (question : string) (w : W) :
  let '(r, _, tr) := ask_context_chat nc parse_task question w in
  forall k m p b e,
    tr !! k = Some (EvOcs m p b (Raised e)) ->
    length tr = S k
    /\ (k = 0%nat -> r = Raise e)
    /\ (k <> 0%nat ->
        r = Raise (if is_ValidationError e then MalformedResponse else e)).
Proof.
  pose proof (ask_context_chat_run nc parse_task question w) as H.
  destruct (ask_context_chat nc parse_task question w) as [[r w'] tr].
  destruct H as [e|response Hp|response task tr r Hp Hrun];
    intros k m p b x Hk.
  - destruct k as [|k]; [|done]. injection Hk as <- <- <- <-.
    split; [done|]. split; [done|]. intros Hk. now destruct Hk.
  - destruct k as [|k]; done.
  - destruct k as [|[|k]]; simpl in Hk; try discriminate.
    destruct (poll_run_raised_event parse_task _ _ _ _ Hrun k m p b x Hk)
      as [-> Hlen].
    split; [simpl; now rewrite Hlen|]. split; [discriminate|]. done.
Qed.

Lemma ocs_failure_ends_the_run_witness :
  (ask_context_chat Demo.nc Demo.parse_task "question" cut_off).1.1
  = Raise (RemoteError "no route")
  /\ (ask_context_chat Demo.nc Demo.parse_task "question" Demo.quiet).1.1
     = Raise (RemoteError "no route").
Proof.
  split.
  - pose proof (ocs_failure_ends_the_run Demo.nc Demo.parse_task "question"
                  cut_off) as H.
    destruct (ask_context_chat Demo.nc Demo.parse_task "question" cut_off)
      as [[r w] tr] eqn:E.
    vm_compute in E. injection E as <- <- <-.
    destruct (H 6%nat "GET" "/ocs/v1.php/taskprocessing/task/7" None
                (RemoteError "no route") eq_refl) as (_ & _ & Hr).
    apply Hr. discriminate.
  - pose proof (ocs_failure_ends_the_run Demo.nc Demo.parse_task "question"
                  Demo.quiet) as H.
    destruct (ask_context_chat Demo.nc Demo.parse_task "question" Demo.quiet)
      as [[r w] tr] eqn:E.
    vm_compute in E. injection E as <- <- <-.
    destruct (H 0%nat "POST" "/ocs/v1.php/taskprocessing/schedule"
                (Some (schedule_body "question"))
                (RemoteError "no route") eq_refl) as (_ & Hr & _).
    now apply Hr.
Defined.

(** X6. Every run makes one submission, as its first call: a [POST] to the
    scheduling path whose input carries the question as its prompt. Every
    other OCS request of the run is a [GET] without a body. *)
Theorem one_submission_per_run {W Principal Cal Conv : Type}
    (nc : Nextcloud W Principal Cal Conv) (parse_task : json -> option Task)
    (question : string) (w : W) :
  (input <~ getitem (schedule_body question) "input" ;;
   getitem input "prompt")%py = Returned (JStr question)
  /\ exists o tr',
       (ask_context_chat nc parse_task question w).2
       = EvOcs "POST" schedule_path (Some (schedule_body question)) o :: tr'
       /\ forall m p b o', EvOcs m p b o' ∈ tr' -> m = "GET" /\ b = None.
Proof.
  split; [reflexivity|].
  pose proof (ask_context_chat_run nc parse_task question w) as H.
  destruct (ask_context_chat nc parse_task question w) as [[r w'] tr].
  simpl.
  destruct H as [e|response Hp|response task tr r Hp Hrun];
    eexists _, _; (split; [reflexivity|]); intros m p b o' Hin.
  - now apply elem_of_nil in Hin.
  - now apply elem_of_nil in Hin.
  - apply elem_of_cons in Hin as [Hin | Hin]; [discriminate|].
    now apply (poll_run_only_get parse_task _ _ _ _ Hrun m p b o').
Qed.

(** X7. When the submission comes back with a task whose status is terminal
    already, the tool neither sleeps nor polls: it logs the task and goes
    on to read its result. *)
Theorem terminal_submission_is_not_polled {W Principal Cal Conv : Type}
    (nc : Nextcloud W Principal Cal Conv) (parse_task : json -> option Task)
    (question : string) (w w1 : W) (response : json) (task : Task) :
  ocs nc "POST" schedule_path (Some (schedule_body question)) w
  = (Returned response, w1) ->
  parse_task response = Some task ->
  terminal (status task) = true ->
  ask_context_chat nc parse_task question w
  = (of_outcome (extract_result task), w1,
     [EvOcs "POST" schedule_path (Some (schedule_body question))
        (Returned response);
      EvLog DEBUG task]).
Proof.
  intros Hpost Hp Hterm.
  unfold ask_context_chat. generalize 360%nat. intros fuel.
  unfold ask_context_chat_fuel, fetch_task,
    try_except_raise, bind, call, lift, log, emit, model_validate.
  rewrite Hpost. simpl. rewrite Hp. simpl.
  rewrite (poll_loop_stop nc parse_task fuel 0 task w1
             (terminal_stops _ _ Hterm)).
  simpl. now destruct (extract_result task).
Qed.

Lemma terminal_submission_is_not_polled_witness :
  ask_context_chat Demo.nc Demo.parse_task "question" done_at_once
  = (Ok Demo.answer_42,
     Demo.mkWorld [] (Raised (RemoteError "no route")) [],
     [EvOcs "POST" schedule_path (Some (schedule_body "question"))
        (Returned (Demo.task_response_with 9 "STATUS_SUCCESSFUL"
                     (JDict [("output", Demo.answer_42)])));
      EvLog DEBUG
        (mkTask 9 "STATUS_SUCCESSFUL" (JDict [("output", Demo.answer_42)]))]).
Proof.
  apply (terminal_submission_is_not_polled Demo.nc Demo.parse_task "question"
           done_at_once
           (Demo.mkWorld [] (Raised (RemoteError "no route")) [])
           (Demo.task_response_with 9 "STATUS_SUCCESSFUL"
              (JDict [("output", Demo.answer_42)]))
           (mkTask 9 "STATUS_SUCCESSFUL" (JDict [("output", Demo.answer_42)])));
    reflexivity.
Defined.

(** X8. The seconds a run sleeps are five times the polls it makes, hence
    1800 at most: the thirty minutes of the comment at line 192. *)
Theorem sleeps_thirty_minutes_at_most {W Principal Cal Conv : Type}
    (nc : Nextcloud W Principal Cal Conv) (parse_task : json -> option Task)
    (question : string) (w : W) :
  let '(_, _, tr) := ask_context_chat nc parse_task question w in
  total_sleep tr = 5 * Z.of_nat (count_polls tr)
  /\ total_sleep tr <= 30 * 60.
Proof.
  pose proof (ask_context_chat_run nc parse_task question w) as H.
  destruct (ask_context_chat nc parse_task question w) as [[r w'] tr].
  assert (total_sleep tr = 5 * Z.of_nat (count_polls tr)) as Hsum.
  { destruct H as [e|response Hp|response task tr r Hp Hrun];
      [done | done |].
    pose proof (poll_run_total_sleep parse_task _ _ _ _ Hrun) as Hs.
    unfold count_polls in *. simpl. exact Hs. }
  split; [exact Hsum|].
  pose proof (proj1 (chat_run_polling parse_task question tr r H)). lia.
Qed.

(** X9. The tool returns a value only in one way: the final fetched task
    has the status [STATUS_SUCCESSFUL], its output is a dict, and the value
    is the one under the key ["output"] of that dict. *)
Theorem value_only_from_successful_output {W Principal Cal Conv : Type}
    (nc : Nextcloud W Principal Cal Conv) (parse_task : json -> option Task)
    (question : string) (w : W) (v : json) :
  (ask_context_chat nc parse_task question w).1.1 = Ok v ->
  exists task d,
    final_task parse_task (ask_context_chat nc parse_task question w).2
    = Some task
    /\ status task = STATUS_SUCCESSFUL
    /\ output task = JDict d
    /\ dict_lookup "output" d = Some v.
Proof.
  pose proof (ask_context_chat_run nc parse_task question w) as H.
  destruct (ask_context_chat nc parse_task question w) as [[r w'] tr].
  simpl. intros ->.
  inversion H as [| |response task tr' r' Hp Hrun Htr Hr]; subst.
  destruct r' as [task'| |]; simpl in Hr; try discriminate.
  exists task'.
  pose proof (poll_run_Ok_final parse_task _ _ _ _ Hrun (Returned response) Hp)
    as Hfinal.
  unfold extract_result in Hr.
  destruct (String.eqb (status task') STATUS_SUCCESSFUL) eqn:Hs;
    simpl in Hr; [|discriminate].
  destruct (output task') as [| | | | | |d] eqn:Hout; simpl in Hr;
    try discriminate.
  exists d.
  destruct (dict_lookup "output" d) as [x|] eqn:Hd; simpl in Hr;
    [|discriminate].
  injection Hr as ->.
  split; [exact Hfinal|]. split; [now apply String.eqb_eq|]. done.
Qed.

Lemma value_only_from_successful_output_witness :
  exists task d,
    final_task Demo.parse_task
      (ask_context_chat Demo.nc Demo.parse_task "question" Demo.answered).2
    = Some task
    /\ status task = STATUS_SUCCESSFUL
    /\ output task = JDict d
    /\ dict_lookup "output" d = Some Demo.answer_42.
Proof.
  apply (value_only_from_successful_output Demo.nc Demo.parse_task "question"
           Demo.answered Demo.answer_42).
  vm_compute. reflexivity.
Defined.

(** X10. A run logs, at the level DEBUG and in order, exactly the tasks
    that its OCS requests fetched: one entry for each response that parsed,
    none for a response that did not or a request that raised. *)
Theorem fetched_tasks_are_logged {W Principal Cal Conv : Type}
    (nc : Nextcloud W Principal Cal Conv) (parse_task : json -> option Task)
    (question : string) (w : W) :
  let '(_, _, tr) := ask_context_chat nc parse_task question w in
  logged tr
  = (fun t => (DEBUG, t)) <$> omap (fetched_task parse_task) (ocs_outcomes tr).
Proof.
  pose proof (ask_context_chat_run nc parse_task question w) as H.
  destruct (ask_context_chat nc parse_task question w) as [[r w'] tr].
  destruct H as [e|response Hp|response task tr r Hp Hrun]; simpl.
  - done.
  - now rewrite Hp.
  - rewrite Hp. simpl. f_equal.
    exact (poll_run_logged parse_task _ _ _ _ Hrun).
Qed.

End ContextChatMore.

(** ** More on the calendar and Talk tools *)

Module CalendarTalkMore.
Import Calendar Talk Observe CalendarTalkProps.

Section Lists.
Context {A : Type} (key : A -> string).

Lemma foldl_insert_last (l : list A) (m : gmap string A) (k : string) :
  foldl (fun m x => <[key x := x]> m) m l !! k
  = match last (filter (fun x => key x = k) l) with
    | Some x => Some x
    | None => m !! k
    end.
Proof.
  revert m. induction l as [|y l IH]; intros m; simpl; [done|].
  rewrite IH. rewrite filter_cons.
  destruct (decide (key y = k)) as [Hy | Hy].
  - rewrite last_cons.
    destruct (last (filter (fun x => key x = k) l)); [done|].
    rewrite <- Hy. apply lookup_insert_eq.
  - destruct (last (filter (fun x => key x = k) l)); [done|].
    now apply lookup_insert_ne.
Qed.

End Lists.

(** X11. When several listed objects carry the name that is looked up, the
    lookups of lines 80, 108 and 122 yield the one listed last; they raise
    only when none carries it. *)
Theorem later_name_wins {A : Type} (key : A -> string) (l : list A)
    (k : string) (x : A) :
  (subscript (dict_by key l) k = Returned x
   <-> last (filter (fun y => key y = k) l) = Some x)
  /\ (subscript (dict_by key l) k = Raised (KeyError (KStr k))
      <-> filter (fun y => key y = k) l = []).
Proof.
  unfold subscript, dict_by. rewrite foldl_insert_last, lookup_empty.
  destruct (last (filter (fun y => key y = k) l)) as [y|] eqn:Hlast.
  - split; [split; congruence|].
    split; [discriminate|]. intros Hnil. now rewrite Hnil in Hlast.
  - split; [split; discriminate|].
    split; [|done]. intros _. now apply last_None.
Qed.

Section ScheduleEvent.
Context {W Principal Cal Conv TzInfo IcsCalendar : Type}.
Variable nc : Nextcloud W Principal Cal Conv.
Variable strptime : string -> string -> outcome datetime.
Variable tz_database : string -> option TzInfo.
Variable ics_calendar : event_fields TzInfo -> outcome IcsCalendar.
Variable ics_str : IcsCalendar -> outcome string.

(** What is checked before the server is called. *)
Lemma schedule_event_local_checks name title descr sd ed st et loc tz w :
  let '(r, w', tr) :=
    schedule_event nc strptime tz_database ics_calendar ics_str
      name title descr sd ed st et loc tz w in
  (tr <> []
   <-> exists times zone c,
         event_times strptime sd ed st et = Returned times
         /\ pytz_timezone tz_database tz = Returned zone
         /\ ics_calendar
              (mkEventFields title (localize zone times.1)
                 (localize zone times.2) descr loc)
            = Returned c)
  /\ (tr = [] -> w' = w /\ exists e, r = Raise e).
Proof.
  unfold schedule_event, bind, lift, call, ret.
  destruct (event_times strptime sd ed st et) as [times|e] eqn:Ht; simpl;
    [|split; [split; [done | now intros (? & ? & ? & ? & _)] | eauto]].
  destruct (pytz_timezone tz_database tz) as [zone|e] eqn:Hz; simpl;
    [|split; [split; [done | now intros (? & ? & ? & _ & ? & _)] | eauto]].
  destruct (ics_calendar
              (mkEventFields title (localize zone times.1)
                 (localize zone times.2) descr loc)) as [c|e] eqn:Hc; simpl.
  - run_steps; (split; [split; [eauto 6 | done] | done]).
  - split; [|eauto]. split; [done|].
    intros (times' & zone' & c' & [= <-] & [= <-] & Hc'). congruence.
Qed.

End ScheduleEvent.

(** X12. [schedule_event] calls the server only once the dates and times
    have parsed, the time zone is known and the event has been built: then
    its trace is not empty, and otherwise it raises with an empty trace and
    the server as it was. *)
Theorem schedule_event_checks_before_calling
    {W Principal Cal Conv TzInfo IcsCalendar : Type}
    (nc : Nextcloud W Principal Cal Conv)
    (strptime : string -> string -> outcome datetime)
    (tz_database : string -> option TzInfo)
    (ics_calendar : event_fields TzInfo -> outcome IcsCalendar)
    (ics_str : IcsCalendar -> outcome string)
    (calendar_name title descr sd ed : string)
    (st et loc tz : option string) (w : W) :
  let '(r, w', tr) :=
    schedule_event nc strptime tz_database ics_calendar ics_str
      calendar_name title descr sd ed st et loc tz w in
  (tr <> []
   <-> exists times zone c,
         event_times strptime sd ed st et = Returned times
         /\ pytz_timezone tz_database tz = Returned zone
         /\ ics_calendar
              (mkEventFields title (localize zone times.1)
                 (localize zone times.2) descr loc)
            = Returned c)
  /\ (tr = [] -> w' = w /\ exists e, r = Raise e).
Proof. apply schedule_event_local_checks. Qed.

Lemma subscript_Returned {A : Type} (key : A -> string) (l : list A)
    (k : string) (x : A) :
  subscript (dict_by key l) k = Returned x -> key x = k /\ x ∈ l.
Proof.
  unfold subscript, dict_by.
  destruct (foldl (fun m x => <[key x := x]> m) ∅ l !! k) as [y|] eqn:E;
    [|discriminate].
  intros [= <-].
  apply foldl_insert_Some in E as [[? ?] | E]; [done|].
  now rewrite lookup_empty in E.
Qed.

(** X13. [schedule_event] returns nothing but [True], and returns exactly
    when its last call is an [add_event] that came back. It adds at most
    one event in a run: as its third and last call, after the principal
    and the calendars were fetched, on a listed calendar of the name
    asked for. *)
Theorem schedule_event_adds_once
    {W Principal Cal Conv TzInfo IcsCalendar : Type}
    (nc : Nextcloud W Principal Cal Conv)
    (strptime : string -> string -> outcome datetime)
    (tz_database : string -> option TzInfo)
    (ics_calendar : event_fields TzInfo -> outcome IcsCalendar)
    (ics_str : IcsCalendar -> outcome string)
    (calendar_name title descr sd ed : string)
    (st et loc tz : option string) (w : W) :
  let '(r, _, tr) :=
    schedule_event nc strptime tz_database ics_calendar ics_str
      calendar_name title descr sd ed st et loc tz w in
  (forall b, r = Ok b -> b = true)
  /\ ((exists b, r = Ok b)
      <-> exists c text, last tr = Some (EvAddEvent c text (Returned tt)))
  /\ (forall k c text o,
        tr !! k = Some (EvAddEvent c text o) ->
        k = 2%nat /\ length tr = 3%nat
        /\ cal_name nc c = calendar_name
        /\ exists p L,
             tr !! 0%nat = Some (EvPrincipal (Returned p))
             /\ tr !! 1%nat = Some (EvCalendars (Returned L))
             /\ c ∈ L).
Proof.
  unfold schedule_event, bind, lift, call, ret.
  run_steps;
    repeat match goal with u : unit |- _ => destruct u end;
    (split; [intros b' Hb; try discriminate; now injection Hb as <-|]);
    (split; [split; [intros [b' Hb]; try discriminate; eauto
                    | intros (c' & text' & Hl); simpl in Hl;
                      try congruence; eauto]|]);
    intros k c' text' o' Hk;
    repeat (destruct k as [|k]; simpl in Hk; try discriminate);
    injection Hk as <- <- <-;
    match goal with
    | Hs : subscript _ _ = Returned _ |- _ =>
        apply subscript_Returned in Hs as [Hname Hin]
    end;
    repeat split; eauto.
Qed.

(** X14. [send_message_to_conversation] returns nothing but [True], and
    returns exactly when its last call is a [send_message] that came back.
    It sends at most one message in a run: as its second and last call,
    the text it was given, to a listed conversation of the name asked
    for. *)
Theorem send_message_sends_once {W Principal Cal Conv : Type}
    (nc : Nextcloud W Principal Cal Conv)
    (conversation_name message : string) (w : W) :
  let '(r, _, tr) :=
    send_message_to_conversation nc conversation_name message w in
  (forall b, r = Ok b -> b = true)
  /\ ((exists b, r = Ok b)
      <-> exists c, last tr = Some (EvSendMessage message c (Returned tt)))
  /\ (forall k m c o,
        tr !! k = Some (EvSendMessage m c o) ->
        k = 1%nat /\ length tr = 2%nat /\ m = message
        /\ conv_display_name nc c = conversation_name
        /\ exists L,
             tr !! 0%nat = Some (EvConversations (Returned L)) /\ c ∈ L).
Proof.
  unfold send_message_to_conversation, bind, lift, call, ret.
  run_steps;
    repeat match goal with u : unit |- _ => destruct u end;
    (split; [intros b' Hb; try discriminate; now injection Hb as <-|]);
    (split; [split; [intros [b' Hb]; try discriminate; eauto
                    | intros (c' & Hl); simpl in Hl;
                      try congruence; eauto]|]);
    intros k m' c' o' Hk;
    repeat (destruct k as [|k]; simpl in Hk; try discriminate);
    injection Hk as <- <- <-;
    match goal with
    | Hs : subscript _ _ = Returned _ |- _ =>
        apply subscript_Returned in Hs as [Hname Hin]
    end;
    repeat split; eauto.
Qed.

(** X15. What [list_messages_in_conversation] returns is one line for each
    message that [receive_messages] came back with, in the same order and
    however many they are. It asks once, as its second and last call, for
    past messages ([False]) with the limit it was given, of a listed
    conversation of the name asked for. *)
Theorem list_messages_formats_what_it_receives {W Principal Cal Conv : Type}
    (nc : Nextcloud W Principal Cal Conv)
    (conversation_name : string) (n_messages : Z) (w : W) :
  let '(r, _, tr) :=
    list_messages_in_conversation nc conversation_name n_messages w in
  (forall lines,
     r = Ok lines ->
     exists c messages,
       last tr
       = Some (EvReceiveMessages c false n_messages (Returned messages))
       /\ lines = format_message <$> messages
       /\ length lines = length messages)
  /\ (forall k c b limit o,
        tr !! k = Some (EvReceiveMessages c b limit o) ->
        k = 1%nat /\ length tr = 2%nat /\ b = false /\ limit = n_messages
        /\ conv_display_name nc c = conversation_name
        /\ exists L,
             tr !! 0%nat = Some (EvConversations (Returned L)) /\ c ∈ L).
Proof.
  unfold list_messages_in_conversation, bind, lift, call, ret.
  run_steps;
    (split; [intros lines Hl;
             first [discriminate
                   | injection Hl as <-; eexists _, _;
                     (split; [reflexivity|]);
                     (split; [reflexivity | apply length_fmap])]|]);
    intros k c' b' limit' o' Hk;
    repeat (destruct k as [|k]; simpl in Hk; try discriminate);
    injection Hk as <- <- <- <-;
    match goal with
    | Hs : subscript _ _ = Returned _ |- _ =>
        apply subscript_Returned in Hs as [Hname Hin]
    end;
    repeat split; eauto.
Qed.

(** X16. None of the calendar and Talk tools catches what the server
    raises: in [list_calendars], [schedule_event],
    [list_talk_conversations], [send_message_to_conversation] and
    [list_messages_in_conversation], a remote call that raises is the last
    call of the run, and the tool raises the same exception. *)
Theorem server_errors_pass_through
    {W Principal Cal Conv TzInfo IcsCalendar : Type}
    (nc : Nextcloud W Principal Cal Conv)
    (strptime : string -> string -> outcome datetime)
    (tz_database : string -> option TzInfo)
    (ics_calendar : event_fields TzInfo -> outcome IcsCalendar)
    (ics_str : IcsCalendar -> outcome string) (w : W) :
  (let '(r, _, tr) := list_calendars nc w in
   forall k ev e, tr !! k = Some ev -> raised_by ev = Some e ->
                  length tr = S k /\ r = Raise e)
  /\ (forall calendar_name title descr sd ed st et loc tz,
        let '(r, _, tr) :=
          schedule_event nc strptime tz_database ics_calendar ics_str
            calendar_name title descr sd ed st et loc tz w in
        forall k ev e, tr !! k = Some ev -> raised_by ev = Some e ->
                       length tr = S k /\ r = Raise e)
  /\ (let '(r, _, tr) := list_talk_conversations nc w in
      forall k ev e, tr !! k = Some ev -> raised_by ev = Some e ->
                     length tr = S k /\ r = Raise e)
  /\ (forall conversation_name message,
        let '(r, _, tr) :=
          send_message_to_conversation nc conversation_name message w in
        forall k ev e, tr !! k = Some ev -> raised_by ev = Some e ->
                       length tr = S k /\ r = Raise e)
  /\ (forall conversation_name n_messages,
        let '(r, _, tr) :=
          list_messages_in_conversation nc conversation_name n_messages w in
        forall k ev e, tr !! k = Some ev -> raised_by ev = Some e ->
                       length tr = S k /\ r = Raise e).
Proof.
  repeat split; intros;
    unfold list_calendars, schedule_event, list_talk_conversations,
      send_message_to_conversation, list_messages_in_conversation,
      bind, lift, call, ret;
    run_steps;
    intros k ev x Hk Hraised;
    repeat (destruct k as [|k]; simpl in Hk; try discriminate);
    injection Hk as <-; simpl in Hraised; try discriminate;
    injection Hraised as <-; done.
Qed.

End CalendarTalkMore.

(** ** The two lists of tools *)

Module RegistryProps.
Import Calendar Talk ContextChat Weather Geocoding Registry Observe.
Import CalendarTalkProps ContextChatProps.

Section NoWrites.
Context {W H Principal Cal Conv TzInfo IcsCalendar : Type}.
Variable nc : Nextcloud W Principal Cal Conv.
Variable strptime : string -> string -> outcome datetime.
Variable tz_database : string -> option TzInfo.
Variable ics_calendar : event_fields TzInfo -> outcome IcsCalendar.
Variable ics_str : IcsCalendar -> outcome string.
Variable parse_task : json -> option Task.
Variable httpx_get_json :
  string -> list (string * string) -> H -> outcome json * H.

Lemma poll_run_quiet i task (tr : list (Nc.event Principal Cal Conv)) r :
  poll_run parse_task i task tr r -> Forall quiet_event tr.
Proof. induction 1; repeat constructor; assumption. Qed.

Lemma chat_run_quiet question (tr : list (Nc.event Principal Cal Conv)) r :
  chat_run parse_task question tr r -> Forall quiet_event tr.
Proof.
  destruct 1 as [e|response Hp|response task tr r Hp Hrun];
    repeat constructor.
  exact (poll_run_quiet _ _ _ _ Hrun).
Qed.

Lemma ask_context_chat_quiet question w :
  Forall quiet_event (ask_context_chat nc parse_task question w).2.
Proof.
  pose proof (ask_context_chat_run nc parse_task question w) as Hrun.
  destruct (ask_context_chat nc parse_task question w) as [[r w'] tr].
  exact (chat_run_quiet question tr r Hrun).
Qed.

Lemma list_calendars_quiet w : Forall quiet_event (list_calendars nc w).2.
Proof.
  unfold list_calendars, bind, lift, call, ret.
  run_steps; repeat constructor.
Qed.

Lemma list_talk_conversations_quiet w :
  Forall quiet_event (list_talk_conversations nc w).2.
Proof.
  unfold list_talk_conversations, bind, lift, call, ret.
  run_steps; repeat constructor.
Qed.

Lemma list_messages_quiet name n w :
  Forall quiet_event (list_messages_in_conversation nc name n w).2.
Proof.
  unfold list_messages_in_conversation, bind, lift, call, ret.
  run_steps; repeat constructor.
Qed.

Lemma on_nc_quiet {A} (m : M W (Nc.event Principal Cal Conv) A) w (h : H) :
  Forall quiet_event (m w).2 ->
  forall e, e ∈ (on_nc m w h).2 -> is_write e = false.
Proof.
  unfold on_nc. destruct (m w) as [[r w'] tr]. simpl.
  intros Hq e (e' & -> & Hin)%list_elem_of_fmap.
  rewrite Forall_forall in Hq. destruct (Hq e' Hin) as [Ha Hs].
  destruct e'; simpl in *; congruence.
Qed.

End NoWrites.

(** X17. Every tool is in one and only one of the two lists that
    [get_tools] returns. A call of a tool of [safe_tools] never adds an
    event to a calendar and never sends a message; a call of a tool of
    [dangerous_tools] that returns has done one of the two. *)
Theorem safe_tools_do_not_write
    {W H Principal Cal Conv TzInfo IcsCalendar : Type}
    (nc : Nextcloud W Principal Cal Conv)
    (strptime : string -> string -> outcome datetime)
    (tz_database : string -> option TzInfo)
    (ics_calendar : event_fields TzInfo -> outcome IcsCalendar)
    (ics_str : IcsCalendar -> outcome string)
    (parse_task : json -> option Task)
    (httpx_get_json :
       string -> list (string * string) -> H -> outcome json * H)
    (c : invocation) (w : W) (h : H) :
  (forall t : tool,
     (t ∈ safe_tools \/ t ∈ dangerous_tools)
     /\ ~ (t ∈ safe_tools /\ t ∈ dangerous_tools))
  /\ (let '(ok, _, tr) :=
        run nc strptime tz_database ics_calendar ics_str parse_task
          httpx_get_json c w h in
      (tool_of c ∈ safe_tools -> forall e, e ∈ tr -> is_write e = false)
      /\ (tool_of c ∈ dangerous_tools -> ok = true ->
          exists e, e ∈ tr /\ is_write e = true)).
Proof.
  split.
  - intros t. split.
    + destruct t; unfold safe_tools, dangerous_tools;
        rewrite !elem_of_cons; tauto.
    + intros [Hs Hd]. destruct t; trace_cases Hs; trace_cases Hd.
  - destruct c; simpl.
    + pose proof (on_nc_quiet (H := H) _ w h (list_calendars_quiet nc w))
        as Hq.
      destruct (on_nc (list_calendars nc) w h) as [[ok wh] tr].
      split; [intros _; exact Hq | intros Hd; trace_cases Hd].
    + unfold on_nc, schedule_event, bind, lift, call, ret.
      run_steps;
        (split; [intros Hs; trace_cases Hs | intros _ Hok;
                 try discriminate]).
      eexists. split; [right; right; left | reflexivity].
    + pose proof (on_nc_quiet (H := H) _ w h
                    (list_talk_conversations_quiet nc w)) as Hq.
      destruct (on_nc (list_talk_conversations nc) w h) as [[ok wh] tr].
      split; [intros _; exact Hq | intros Hd; trace_cases Hd].
    + unfold on_nc, send_message_to_conversation, bind, lift, call, ret.
      run_steps;
        (split; [intros Hs; trace_cases Hs | intros _ Hok;
                 try discriminate]).
      eexists. split; [right; left | reflexivity].
    + pose proof (on_nc_quiet (H := H) _ w h
                    (list_messages_quiet nc conversation_name n_messages w))
        as Hq.
      destruct (on_nc (list_messages_in_conversation nc conversation_name
                         n_messages) w h) as [[ok wh] tr].
      split; [intros _; exact Hq | intros Hd; trace_cases Hd].
    + unfold get_coordinates_for_address.
      destruct (httpx_get_json search_url (search_params address) h)
        as [o h'].
      split; [|intros Hd; trace_cases Hd].
      intros _ ev He. simpl in He. trace_cases He. now subst ev.
    + unfold get_current_weather_for_coordinates, bind, call, lift.
      destruct (httpx_get_json weather_url [("lat", lat); ("lon", lon)] h)
        as [[j|x] h']; simpl.
      * destruct (weather_details j); simpl;
          (split; [|intros Hd; trace_cases Hd]);
          intros _ ev He; trace_cases He; now subst ev.
      * split; [|intros Hd; trace_cases Hd].
        intros _ ev He. trace_cases He. now subst ev.
    + pose proof (on_nc_quiet (H := H) _ w h
                    (ask_context_chat_quiet nc parse_task question w)) as Hq.
      destruct (on_nc (ask_context_chat nc parse_task question) w h)
        as [[ok wh] tr].
      split; [intros _; exact Hq | intros Hd; trace_cases Hd].
Qed.

End RegistryProps.
